(** * The self-healing code assistant ([src/code_assistant.py])

    A shallow embedding of [CodeAssistant]: the prompt builder, the mock
    completion client, the two runners and the retry controller
    [solve_task], followed by the properties the specification states
    about them.

    Text is modelled by [string]: a sequence of 8-bit characters, read as
    the code points U+0000 to U+00FF.  The host (completion service, child
    processes, temporary names) is an interface, [Host]; the working
    directory and the temporary area are finite maps from path to text. *)

From Stdlib Require Import String Ascii List ZArith Lia Bool Sorted.
From Stdlib Require Import DecimalString DecimalNat.
From stdpp Require Import gmap strings.
Import ListNotations.

Open Scope string_scope.

(** ** Python string primitives *)

Module PyStr.

Definition nl : string := String "010"%char EmptyString.
Definition dq : string := String "034"%char EmptyString.

(** ['\n'.join(ls)] *)
Definition unlines (ls : list string) : string := String.concat nl ls.

(** [needle in hay] *)
Fixpoint str_in (needle hay : string) : bool :=
  String.prefix needle hay ||
  match hay with
  | EmptyString => false
  | String _ rest => str_in needle rest
  end.

(** [c in s] for one character. *)
Fixpoint has_char (c : ascii) (s : string) : bool :=
  match s with
  | EmptyString => false
  | String d r => Ascii.eqb c d || has_char c r
  end.

(** [s.startswith(p)] *)
Definition startswith (p s : string) : bool := String.prefix p s.

(** [c.lower()] on U+0000..U+00FF: A-Z and the Latin-1 capitals
    U+00C0..U+00DE (the multiplication sign U+00D7 apart) move up by 32. *)
Definition lower_char (c : ascii) : ascii :=
  let n := nat_of_ascii c in
  if (((65 <=? n) && (n <=? 90)) || ((192 <=? n) && (n <=? 222) && negb (n =? 215)))%nat
  then ascii_of_nat (n + 32) else c.

(** [s.lower()] *)
Fixpoint lower (s : string) : string :=
  match s with
  | EmptyString => EmptyString
  | String c r => String (lower_char c) (lower r)
  end.

(** [c.isspace()] on U+0000..U+00FF. *)
Definition isspace (c : ascii) : bool :=
  let n := nat_of_ascii c in
  (((9 <=? n) && (n <=? 13)) || ((28 <=? n) && (n <=? 32)) || (n =? 133) || (n =? 160))%nat.

Fixpoint lstrip (s : string) : string :=
  match s with
  | EmptyString => EmptyString
  | String c r => if isspace c then lstrip r else s
  end.

Fixpoint rstrip (s : string) : string :=
  match s with
  | EmptyString => EmptyString
  | String c r =>
      match rstrip r with
      | EmptyString => if isspace c then EmptyString else String c EmptyString
      | r' => String c r'
      end
  end.

(** [s.strip()] *)
Definition strip (s : string) : string := rstrip (lstrip s).

(** [s.split(sep)] for a one-character separator. *)
Fixpoint split_on (sep : ascii) (s : string) : list string :=
  match s with
  | EmptyString => [EmptyString]
  | String c r =>
      if Ascii.eqb c sep then EmptyString :: split_on sep r
      else match split_on sep r with
           | [] => [String c EmptyString]
           | h :: t => String c h :: t
           end
  end.

(** [s.split('\n')] *)
Definition split_lines (s : string) : list string := split_on "010"%char s.

(** [s[:n]] *)
Fixpoint take (n : nat) (s : string) : string :=
  match n, s with
  | S k, String c r => String c (take k r)
  | _, _ => EmptyString
  end.

(** [s[n:]] *)
Fixpoint drop (n : nat) (s : string) : string :=
  match n, s with
  | S k, String _ r => drop k r
  | _, _ => s
  end.

(** [s.replace(old, new)]: occurrences of [old] are found left to right
    and do not overlap; [skip] counts the characters of a match still to
    be passed over. *)
Fixpoint replace_from (old new : string) (skip : nat) (s : string) : string :=
  match s with
  | EmptyString => EmptyString
  | String c r =>
      match skip with
      | S k => replace_from old new k r
      | O =>
          if String.prefix old s
          then new +:+ replace_from old new (String.length old - 1) r
          else String c (replace_from old new 0 r)
      end
  end.

(** With an empty [old], Python puts [new] before every character and at
    the end. *)
Fixpoint intersperse (new s : string) : string :=
  match s with
  | EmptyString => new
  | String c r => new +:+ String c (intersperse new r)
  end.

Definition replace (old new s : string) : string :=
  match old with
  | EmptyString => intersperse new s
  | _ => replace_from old new 0 s
  end.

(** The class [[a-zA-Z0-9]] of [re]. *)
Definition is_alnum (c : ascii) : bool :=
  let n := nat_of_ascii c in
  (((48 <=? n) && (n <=? 57)) || ((65 <=? n) && (n <=? 90)) || ((97 <=? n) && (n <=? 122)))%nat.

(** [re.sub(r'[^a-zA-Z0-9]', '_', s)] *)
Fixpoint sub_non_alnum (s : string) : string :=
  match s with
  | EmptyString => EmptyString
  | String c r => String (if is_alnum c then c else "_"%char) (sub_non_alnum r)
  end.

(** [str(n)] for a natural number. *)
Definition str_of_nat (n : nat) : string := NilEmpty.string_of_uint (Nat.to_uint n).

(** [os.path.join(a, b)] (posixpath). *)
Definition endswith_slash (s : string) : bool :=
  match String.get (String.length s - 1) s with
  | Some c => Ascii.eqb c "/"%char
  | None => false
  end.

Definition path_join (a b : string) : string :=
  if startswith "/" b then b
  else if (String.eqb a EmptyString) || endswith_slash a then a +:+ b
  else a +:+ "/" +:+ b.

(** [s[-1]], when there is one. *)
Fixpoint last_char (s : string) : option ascii :=
  match s with
  | EmptyString => None
  | String c EmptyString => Some c
  | String _ r => last_char r
  end.

(** Truth value of a [str]. *)
Definition truthy (s : string) : bool :=
  match s with EmptyString => false | _ => true end.

End PyStr.
Import PyStr.

(** ** The mock completion client ([MockOpenAI], lines 27-225) *)

Record Message := { role : string; content : string }.

(** Source line 39: the text assigned to [mock_code]. *)
Definition mock_rust_quicksort : string :=
  unlines
    ["fn quicksort(arr: &mut [i32]) {";
     "    if arr.len() <= 1 {";
     "        return;";
     "    }";
     "    let pivot = partition(arr);";
     "    let (left, right) = arr.split_at_mut(pivot);";
     "    quicksort(left);";
     "    quicksort(&mut right[1..]);";
     "}";
     EmptyString;
     "fn partition(arr: &mut [i32]) -> usize {";
     "    let pivot = arr[0];";
     "    let mut i = 1;";
     "    for j in 1..arr.len() {";
     "        if arr[j] <= pivot {";
     "            arr.swap(i, j);";
     "            i += 1;";
     "        }";
     "    }";
     "    arr.swap(0, i - 1);";
     "    i - 1";
     "}";
     EmptyString;
     "fn main() {";
     "    let mut arr = [64, 34, 25, 12, 22, 11, 90];";
     "    quicksort(&mut arr);";
     "    println!(" +:+ dq +:+ "{:?}" +:+ dq +:+ ", arr);";
     "}";
     EmptyString;
     "#[cfg(test)]";
     "mod tests {";
     "    use super::*;";
     "    ";
     "    #[test]";
     "    fn test_quicksort() {";
     "        let mut arr = [3, 1, 4, 1, 5];";
     "        quicksort(&mut arr);";
     "        assert_eq!(arr, [1, 1, 3, 4, 5]);";
     "    }";
     "}"].

(** Source line 80: the text assigned to [mock_code]. *)
Definition mock_rust_hello : string :=
  unlines
    ["fn main() {";
     "    println!(" +:+ dq +:+ "Hello, World!" +:+ dq +:+ ");";
     "}";
     EmptyString;
     "#[cfg(test)]";
     "mod tests {";
     "    #[test]";
     "    fn test_hello() {";
     "        assert_eq!(2 + 2, 4);";
     "    }";
     "}"].

(** Source line 93: the text assigned to [mock_code]. *)
Definition mock_python_quicksort : string :=
  unlines
    ["def quicksort(arr):";
     "    if len(arr) <= 1:";
     "        return arr";
     "    pivot = arr[len(arr) // 2]";
     "    left = [x for x in arr if x < pivot]";
     "    middle = [x for x in arr if x == pivot]";
     "    right = [x for x in arr if x > pivot]";
     "    return quicksort(left) + middle + quicksort(right)";
     EmptyString;
     "if __name__ == " +:+ dq +:+ "__main__" +:+ dq +:+ ":";
     "    arr = [64, 34, 25, 12, 22, 11, 90]";
     "    sorted_arr = quicksort(arr)";
     "    print(f" +:+ dq +:+ "Sorted array: {sorted_arr}" +:+ dq +:+ ")";
     EmptyString;
     "import unittest";
     EmptyString;
     "class TestQuicksort(unittest.TestCase):";
     "    def test_quicksort(self):";
     "        self.assertEqual(quicksort([3, 1, 4, 1, 5]), [1, 1, 3, 4, 5])";
     "        self.assertEqual(quicksort([]), [])";
     "        self.assertEqual(quicksort([1]), [1])"].

(** Source line 115: the text assigned to [mock_code]. *)
Definition mock_python_bst : string :=
  unlines
    ["class TreeNode:";
     "    def __init__(self, val=0):";
     "        self.val = val";
     "        self.left = None";
     "        self.right = None";
     EmptyString;
     "class BST:";
     "    def __init__(self):";
     "        self.root = None";
     "    ";
     "    def insert(self, val):";
     "        self.root = self._insert(self.root, val)";
     "    ";
     "    def _insert(self, node, val):";
     "        if not node:";
     "            return TreeNode(val)";
     "        if val < node.val:";
     "            node.left = self._insert(node.left, val)";
     "        else:";
     "            node.right = self._insert(node.right, val)";
     "        return node";
     "    ";
     "    def search(self, val):";
     "        return self._search(self.root, val)";
     "    ";
     "    def _search(self, node, val):";
     "        if not node or node.val == val:";
     "            return node is not None";
     "        if val < node.val:";
     "            return self._search(node.left, val)";
     "        return self._search(node.right, val)";
     EmptyString;
     "if __name__ == " +:+ dq +:+ "__main__" +:+ dq +:+ ":";
     "    bst = BST()";
     "    for val in [5, 3, 7, 2, 4, 6, 8]:";
     "        bst.insert(val)";
     "    print(f" +:+ dq +:+ "Search 4: {bst.search(4)}" +:+ dq +:+ ")";
     "    print(f" +:+ dq +:+ "Search 9: {bst.search(9)}" +:+ dq +:+ ")";
     EmptyString;
     "import unittest";
     EmptyString;
     "class TestBST(unittest.TestCase):";
     "    def test_bst(self):";
     "        bst = BST()";
     "        bst.insert(5)";
     "        bst.insert(3)";
     "        bst.insert(7)";
     "        self.assertTrue(bst.search(5))";
     "        self.assertTrue(bst.search(3))";
     "        self.assertFalse(bst.search(10))"].

(** Source line 166: the text assigned to [mock_code]. *)
Definition mock_python_fibonacci : string :=
  unlines
    ["def fibonacci_memo(n, memo={}):";
     "    if n in memo:";
     "        return memo[n]";
     "    if n <= 1:";
     "        return n";
     "    memo[n] = fibonacci_memo(n-1, memo) + fibonacci_memo(n-2, memo)";
     "    return memo[n]";
     EmptyString;
     "def fibonacci_iterative(n):";
     "    if n <= 1:";
     "        return n";
     "    a, b = 0, 1";
     "    for _ in range(2, n + 1):";
     "        a, b = b, a + b";
     "    return b";
     EmptyString;
     "if __name__ == " +:+ dq +:+ "__main__" +:+ dq +:+ ":";
     "    n = 10";
     "    print(f" +:+ dq +:+ "Fibonacci({n}) with memoization: {fibonacci_memo(n)}" +:+ dq +:+ ")";
     "    print(f" +:+ dq +:+ "Fibonacci({n}) iterative: {fibonacci_iterative(n)}" +:+ dq +:+ ")";
     EmptyString;
     "import unittest";
     EmptyString;
     "class TestFibonacci(unittest.TestCase):";
     "    def test_fibonacci_memo(self):";
     "        self.assertEqual(fibonacci_memo(0), 0)";
     "        self.assertEqual(fibonacci_memo(1), 1)";
     "        self.assertEqual(fibonacci_memo(10), 55)";
     "    ";
     "    def test_fibonacci_iterative(self):";
     "        self.assertEqual(fibonacci_iterative(0), 0)";
     "        self.assertEqual(fibonacci_iterative(1), 1)";
     "        self.assertEqual(fibonacci_iterative(10), 55)"].

(** Source line 200: the text assigned to [mock_code]. *)
Definition mock_python_hello : string :=
  unlines
    ["def hello():";
     "    return " +:+ dq +:+ "Hello, World!" +:+ dq;
     EmptyString;
     "if __name__ == " +:+ dq +:+ "__main__" +:+ dq +:+ ":";
     "    print(hello())";
     EmptyString;
     "import unittest";
     EmptyString;
     "class TestHello(unittest.TestCase):";
     "    def test_hello(self):";
     "        self.assertEqual(hello(), " +:+ dq +:+ "Hello, World!" +:+ dq +:+ ")"].

(** [MockOpenAI.Chat.Completions.create]: the text is chosen from the
    content of the first message. *)
Definition mock_create (messages : list Message) : string :=
  let task := match messages with
              | m :: _ => content m
              | [] => EmptyString
              end in
  if str_in "rust" (lower task) then
    if str_in "quicksort" (lower task) then mock_rust_quicksort
    else mock_rust_hello
  else
    if str_in "quicksort" (lower task) then mock_python_quicksort
    else if str_in "binary search tree" (lower task) then mock_python_bst
    else if str_in "fibonacci" (lower task) && str_in "memoization" (lower task)
         then mock_python_fibonacci
    else mock_python_hello.

(** ** Prompt construction ([generate_code], lines 237-265) *)

Definition rust_prompt (task : string) : string :=
  nl +:+ "Write a complete Rust program for: " +:+ task +:+ nl +:+
  nl +:+
  "Requirements:" +:+ nl +:+
  "- Include all necessary dependencies in Cargo.toml format at the top as comments" +:+ nl +:+
  "- Include comprehensive tests using #[cfg(test)]" +:+ nl +:+
  "- Make sure the code compiles and all tests pass" +:+ nl +:+
  "- Use proper error handling" +:+ nl.

Definition python_prompt (task : string) : string :=
  nl +:+ "Write a complete Python program for: " +:+ task +:+ nl +:+
  nl +:+
  "Requirements:" +:+ nl +:+
  "- Include all necessary imports" +:+ nl +:+
  "- Include comprehensive tests using pytest or unittest" +:+ nl +:+
  "- Make sure the code runs without errors" +:+ nl +:+
  "- Use proper error handling" +:+ nl.

Definition correction (previous_error : string) : string :=
  nl +:+ nl +:+
  "IMPORTANT: The previous attempt failed with this error:" +:+ nl +:+
  previous_error +:+ nl +:+
  nl +:+
  "Please fix this error in your new implementation." +:+ nl.

Definition build_prompt (task language : string) (previous_error : option string) : string :=
  let base_prompt :=
    if String.eqb (lower language) "rust" then rust_prompt task
    else python_prompt task in
  match previous_error with
  | Some e => if truthy e then base_prompt +:+ correction e else base_prompt
  | None => base_prompt
  end.

(** ** The host *)

(** What a child process started by [subprocess.run(..., text=True,
    timeout=t)] inside a [try] block does: it exits, it outlives the
    timeout ([subprocess.TimeoutExpired]), or the call raises another
    [Exception] whose [str] is [msg]. *)
Inductive RunOutcome :=
| Exited (returncode : Z) (stdout stderr : string)
| TimedOut
| RunError (msg : string).

(** What [subprocess.run(..., check=True)] does in the two probes: the
    process exits with a return code, or the program is not there. *)
Inductive ProbeOutcome :=
| ProbeExited (returncode : Z)
| ProbeNotFound.

(** Paths to text: the working directory and the temporary area. *)
Record Store (W : Type) := mkStore {
  host : W;
  cwd_files : gmap string string;
  tmp_files : gmap string string
}.
Arguments mkStore {W}.
Arguments host {W}.
Arguments cwd_files {W}.
Arguments tmp_files {W}.

(** The collaborators of the assistant: the completion client held in
    [self.client], the child processes, and [tempfile].  A call the source
    makes outside any [try] (the completion call, [tempfile], [open] for
    writing) is taken to return; a [--version] probe raises nothing but
    what its [except] names; a child process started inside
    [try ... except Exception] may time out or fail in any way. *)
Class Host (W : Type) := {
  chat_completions_create :
    string (* model *) -> list Message -> nat (* max_tokens *) -> W -> string * W;
  probe : list string -> W -> ProbeOutcome * W;
  spawn : list string -> option string (* cwd *) -> nat (* timeout *) ->
          Store W -> RunOutcome * W;
  mkdtemp : W -> string * W;
  mkstemp : string (* suffix *) -> W -> string * W;
  getenv_model_name : option string
}.

(** ** Effects: a store, and the calls made *)

Inductive Event :=
| EvProbe (argv : list string) (r : ProbeOutcome)
| EvSpawn (argv : list string) (cwd : option string) (timeout : nat) (r : RunOutcome)
| EvCreate (messages : list Message) (response : string)
| EvSave (filename text : string)
| EvTested (success : bool) (output : string).

Definition M (W A : Type) : Type := Store W -> A * list Event * Store W.

Definition ret {W A} (a : A) : M W A := fun st => (a, [], st).

Definition bind {W A B} (m : M W A) (k : A -> M W B) : M W B :=
  fun st =>
    let '(a, ev1, st1) := m st in
    let '(b, ev2, st2) := k a st1 in
    (b, (ev1 ++ ev2)%list, st2).

Declare Scope asst_scope.
Delimit Scope asst_scope with asst.
Notation "x <- m ;; k" := (bind m (fun x => k))
  (at level 100, m at next level, right associativity) : asst_scope.
Notation "m ;;; k" := (bind m (fun _ => k))
  (at level 100, right associativity) : asst_scope.

(** The exceptions a [try] block of the runners can see. *)
Inductive Exn :=
| TimeoutExpired
| OtherException (msg : string).

(** A computation inside [try]: it raises or it returns. *)
Definition Try (W A : Type) : Type := M W (Exn + A).

Definition try_ret {W A} (a : A) : Try W A := ret (inr a).

Definition try_bind {W A B} (m : Try W A) (k : A -> Try W B) : Try W B :=
  bind m (fun r => match r with
                   | inl e => ret (inl e)
                   | inr a => k a
                   end).

Notation "x <-? m ;; k" := (try_bind m (fun x => k))
  (at level 100, m at next level, right associativity) : asst_scope.

(** [try: body except TimeoutExpired: on_timeout except Exception as e:
    on_error(str(e))] *)
Definition try_except {W A} (body : Try W A) (on_timeout : A) (on_error : string -> A)
  : M W A :=
  bind body (fun r => match r with
                      | inr a => ret a
                      | inl TimeoutExpired => ret on_timeout
                      | inl (OtherException msg) => ret (on_error msg)
                      end).

(** ** The assistant *)

(** [self.max_attempts], set by [__init__] (line 232). *)
Definition max_attempts : nat := 3.

(** The terminal record [solve_task] returns: the dictionary with
    ["success": True] or the one with ["success": False]. *)
Inductive Result :=
| Success (attempts : nat) (final_code filename output : string)
| Failure (attempts : nat) (final_error final_code : option string).

Definition success (r : Result) : bool :=
  match r with
  | Success _ _ _ _ => true
  | Failure _ _ _ => false
  end.

Definition attempts (r : Result) : nat :=
  match r with
  | Success n _ _ _ => n
  | Failure n _ _ => n
  end.

Definition final_error (r : Result) : option string :=
  match r with
  | Success _ _ _ _ => None
  | Failure _ e _ => e
  end.

(** The fixed texts of the runners. *)
Definition cargo_toml_header : string :=
  unlines
    ["[package]";
     "name = " +:+ dq +:+ "test_project" +:+ dq;
     "version = " +:+ dq +:+ "0.1.0" +:+ dq;
     "edition = " +:+ dq +:+ "2021" +:+ dq;
     EmptyString;
     "[dependencies]";
     EmptyString].

Definition rust_missing : string :=
  "Rust/Cargo not installed. Install with: curl --proto '=https' --tlsv1.2 -sSf https://sh.rustup.rs | sh".
Definition build_failed (stderr : string) : string := "Build failed:" +:+ nl +:+ stderr.
Definition tests_failed (stderr : string) : string := "Tests failed:" +:+ nl +:+ stderr.
Definition syntax_error (stderr : string) : string := "Syntax error:" +:+ nl +:+ stderr.
Definition runtime_error (stderr : string) : string := "Runtime error:" +:+ nl +:+ stderr.
Definition error_text (msg : string) : string := "Error: " +:+ msg.
Definition rust_timeout : string := "Compilation/testing timed out".
Definition python_timeout : string := "Code execution timed out".
Definition rust_passed : string := "All tests passed!".
Definition python_passed : string := "Code executed successfully!".

(** A line of the source that [create_rust_project] takes for a
    dependency comment when it cleans the code (line 305). *)
Definition dependency_comment (line : string) : bool :=
  startswith "//" (strip line) && (str_in "=" line || str_in "[" line).

(** The lines [create_rust_project] appends to the manifest (lines 289-293). *)
Definition cargo_step (cargo_toml line : string) : string :=
  if startswith "//" (strip line) && (str_in "=" line || str_in "version" (lower line))
  then
    let cargo_line := strip (drop 2 (strip line)) in
    if negb (startswith "[" cargo_line) && str_in "=" cargo_line
    then cargo_toml +:+ cargo_line +:+ nl
    else cargo_toml
  else cargo_toml.

Definition clean (code : string) : string :=
  unlines (List.filter (fun line => negb (dependency_comment line)) (split_lines code)).

(** [re.sub(r'[^a-zA-Z0-9]', '_', task.lower())[:30]] (line 455). *)
Definition task_name_of (task : string) : string :=
  take 30 (sub_non_alnum (lower task)).

(** The name of the audit file (line 468). *)
Definition attempt_filename (task_name : string) (attempt : nat) (language : string) : string :=
  task_name +:+ "_attempt_" +:+ str_of_nat attempt +:+ "." +:+
  (if String.eqb language "rust" then "rs" else "py").

Section Assistant.

Context {W : Type} {HW : Host W}.

Local Open Scope asst_scope.

(** [os.getenv("MODEL_NAME", "gpt-4")] *)
Definition model : string :=
  match getenv_model_name with
  | Some m => m
  | None => "gpt-4"
  end.

Definition set_host (w : W) (st : Store W) : Store W :=
  mkStore w (cwd_files st) (tmp_files st).

(** [subprocess.run(argv, capture_output=True, check=True)] *)
Definition subprocess_probe (argv : list string) : M W ProbeOutcome :=
  fun st =>
    let '(r, w) := probe argv (host st) in
    (r, [EvProbe argv r], set_host w st).

(** [subprocess.run(argv, cwd=cwd, capture_output=True, text=True,
    timeout=timeout)]: the return code and the error stream, or an
    exception. *)
Definition subprocess_run (argv : list string) (cwd : option string) (timeout : nat)
  : Try W (Z * string) :=
  fun st =>
    let '(r, w) := spawn argv cwd timeout st in
    (match r with
     | Exited returncode _ stderr => inr (returncode, stderr)
     | TimedOut => inl TimeoutExpired
     | RunError msg => inl (OtherException msg)
     end,
     [EvSpawn argv cwd timeout r], set_host w st).

(** [open(path, 'w').write(text)] in the temporary area. *)
Definition write_tmp (path text : string) : M W unit :=
  fun st => (tt, [], mkStore (host st) (cwd_files st) (<[path := text]> (tmp_files st))).

(** [open(filename, 'w').write(text)] in the working directory. *)
Definition write_cwd (filename text : string) : M W unit :=
  fun st => (tt, [EvSave filename text],
             mkStore (host st) (<[filename := text]> (cwd_files st)) (tmp_files st)).

(** [os.unlink(path)], errors ignored. *)
Definition unlink (path : string) : M W unit :=
  fun st => (tt, [], mkStore (host st) (cwd_files st) (delete path (tmp_files st))).

(** Leaving [with tempfile.TemporaryDirectory()]: what is under the
    directory goes. *)
Definition rmtree (dir : string) : M W unit :=
  fun st => (tt, [],
             mkStore (host st) (cwd_files st)
               (filter (fun kv => String.prefix (dir +:+ "/") (fst kv) = false)
                       (tmp_files st))).

Definition temporary_directory : M W string :=
  fun st => let '(d, w) := mkdtemp (host st) in (d, [], set_host w st).

Definition named_temporary_file (suffix text : string) : M W string :=
  fun st =>
    let '(f, w) := mkstemp suffix (host st) in
    (f, [], mkStore w (cwd_files st) (<[f := text]> (tmp_files st))).

Definition emit (e : Event) : M W unit := fun st => (tt, [e], st).

Definition lift {A} (m : M W A) : Try W A := bind m (fun a => ret (inr a)).

(** [generate_code] (lines 234-273) *)
Definition generate_code (task language : string) (previous_error : option string)
  : M W string :=
  let base_prompt := build_prompt task language previous_error in
  let messages := [{| role := "user"; content := base_prompt |}] in
  fun st =>
    let '(text, w) := chat_completions_create model messages 1500 (host st) in
    (text, [EvCreate messages text], set_host w st).

(** [create_rust_project] (lines 275-311) *)
Definition create_rust_project (code temp_dir : string) : M W (string * string) :=
  let lines := split_lines code in
  let cargo_toml := fold_left cargo_step lines cargo_toml_header in
  let project_dir := path_join temp_dir "test_project" in
  let src_dir := path_join project_dir "src" in
  write_tmp (path_join project_dir "Cargo.toml") cargo_toml ;;;
  let clean_code := clean code in
  write_tmp (path_join src_dir "main.rs") clean_code ;;;
  ret (project_dir, clean_code).

(** [check_rust_available] (lines 313-319): [CalledProcessError] and
    [FileNotFoundError] both give [False]. *)
Definition check_rust_available : M W bool :=
  r <- subprocess_probe ["cargo"; "--version"] ;;
  match r with
  | ProbeExited 0 => ret true
  | ProbeExited _ => ret false
  | ProbeNotFound => ret false
  end.

(** [test_rust_code] (lines 321-360) *)
Definition test_rust_code (code : string) : M W (bool * string) :=
  available <- check_rust_available ;;
  if negb available then ret (false, rust_missing)
  else
    temp_dir <- temporary_directory ;;
    r <- try_except
           (p <-? lift (create_rust_project code temp_dir) ;;
            built <-? subprocess_run ["cargo"; "build"] (Some (fst p)) 30 ;;
            if negb (Z.eqb (fst built) 0)
            then try_ret (false, build_failed (snd built))
            else
              tested <-? subprocess_run ["cargo"; "test"] (Some (fst p)) 30 ;;
              if negb (Z.eqb (fst tested) 0)
              then try_ret (false, tests_failed (snd tested))
              else try_ret (true, rust_passed))
           (false, rust_timeout)
           (fun msg => (false, error_text msg)) ;;
    rmtree temp_dir ;;;
    ret r.

(** [get_python_command] (lines 362-370) *)
Fixpoint first_command (cmds : list string) : M W string :=
  match cmds with
  | [] => ret "python3"
  | cmd :: rest =>
      r <- subprocess_probe [cmd; "--version"] ;;
      match r with
      | ProbeExited 0 => ret cmd
      | _ => first_command rest
      end
  end.

Definition get_python_command : M W string := first_command ["python3"; "python"].

(** [test_python_code] (lines 372-435) *)
Definition test_python_code (code : string) : M W (bool * string) :=
  python_cmd <- get_python_command ;;
  temp_file <- named_temporary_file ".py" code ;;
  r <- try_except
         (checked <-? subprocess_run [python_cmd; "-m"; "py_compile"; temp_file] None 10 ;;
          if negb (Z.eqb (fst checked) 0)
          then try_ret (false, syntax_error (snd checked))
          else
            ran <-? subprocess_run [python_cmd; temp_file] None 30 ;;
            if negb (Z.eqb (fst ran) 0)
            then try_ret (false, runtime_error (snd ran))
            else
              if str_in "pytest" code || str_in "unittest" code
              then
                tested <-? subprocess_run [python_cmd; "-m"; "pytest"; temp_file; "-v"] None 30 ;;
                if negb (Z.eqb (fst tested) 0)
                then
                  again <-? subprocess_run [python_cmd; "-m"; "unittest"; temp_file] None 30 ;;
                  if negb (Z.eqb (fst again) 0)
                  then try_ret (false, tests_failed (snd again))
                  else try_ret (true, python_passed)
                else try_ret (true, python_passed)
              else try_ret (true, python_passed))
         (false, python_timeout)
         (fun msg => (false, error_text msg)) ;;
  unlink temp_file ;;;
  ret r.

(** The language and the task text [solve_task] works with (lines 441-447). *)
Definition resolve (task : string) : M W (string * string) :=
  let language := if str_in "rust" (lower task) then "rust" else "python" in
  if String.eqb language "rust"
  then
    available <- check_rust_available ;;
    if negb available
    then ret ("python", replace "Rust" "Python" (replace "rust" "python" task))
    else ret (language, task)
  else ret (language, task).

(** The runner for a language (lines 475-478). *)
Definition run_tests (language code : string) : M W (bool * string) :=
  if String.eqb language "rust" then test_rust_code code
  else test_python_code code.

(** The body of the [while] loop (lines 463-478): generate, save, test. *)
Definition attempt_body (task language task_name : string) (attempt : nat)
    (previous_error : option string) : M W (string * string * (bool * string)) :=
  code <- generate_code task language previous_error ;;
  let filename := attempt_filename task_name attempt language in
  write_cwd filename code ;;;
  r <- run_tests language code ;;
  emit (EvTested (fst r) (snd r)) ;;;
  ret (code, filename, r).

(** The [while attempt <= self.max_attempts] loop (lines 460-500); every
    call made during an iteration is logged with the value of [attempt]. *)
Fixpoint attempt_loop (fuel : nat) (task language task_name : string) (attempt : nat)
    (previous_error code : option string) (st : Store W)
  : option (Result * list (nat * Event) * Store W) :=
  if (attempt <=? max_attempts)%nat then
    match fuel with
    | O => None
    | S fuel' =>
        let '(code', filename, (ok, output), evs, st') :=
          attempt_body task language task_name attempt previous_error st in
        let logged := List.map (pair attempt) evs in
        if ok then Some (Success attempt code' filename output, logged, st')
        else
          match attempt_loop fuel' task language task_name (S attempt)
                  (Some output) (Some code') st' with
          | Some (r, log, st'') => Some (r, (logged ++ log)%list, st'')
          | None => None
          end
    end
  else Some (Failure max_attempts previous_error code, [], st).

(** The loop as a relation: from the state at the head of the [while],
    the result it returns, what it logs and the store it leaves. *)
Inductive loop_run (task language task_name : string)
  : nat -> option string -> option string -> Store W ->
    Result -> list (nat * Event) -> Store W -> Prop :=
| loop_exhausted attempt previous_error code st :
    (max_attempts < attempt)%nat ->
    loop_run task language task_name attempt previous_error code st
      (Failure max_attempts previous_error code) [] st
| loop_pass attempt previous_error code st code' filename output evs st' :
    (attempt <= max_attempts)%nat ->
    attempt_body task language task_name attempt previous_error st
      = (code', filename, (true, output), evs, st') ->
    loop_run task language task_name attempt previous_error code st
      (Success attempt code' filename output) (List.map (pair attempt) evs) st'
| loop_retry attempt previous_error code st code' filename output evs st' r log st'' :
    (attempt <= max_attempts)%nat ->
    attempt_body task language task_name attempt previous_error st
      = (code', filename, (false, output), evs, st') ->
    loop_run task language task_name (S attempt) (Some output) (Some code') st'
      r log st'' ->
    loop_run task language task_name attempt previous_error code st
      r (List.map (pair attempt) evs ++ log)%list st''.

(** What a run of [solve_task] leaves behind. *)
Record Run := mkRun {
  run_language : string;
  run_task : string;
  run_setup : list Event;
  run_log : list (nat * Event);
  run_result : Result;
  run_store : Store W
}.

(** [solve_task] (lines 437-500) *)
Definition solve_task (task : string) (st : Store W) : option Run :=
  let '(language, task', setup, st1) := resolve task st in
  let task_name := task_name_of task' in
  match attempt_loop max_attempts task' language task_name 1 None None st1 with
  | Some (r, log, st2) => Some (mkRun language task' setup log r st2)
  | None => None
  end.

End Assistant.

(** ** Two hosts *)

(** The mock client of [__init__], on a host whose child processes follow
    a script: each call takes the next outcome, and an exhausted script
    means exit code 0. *)
Definition scripted_spawn (script : list RunOutcome) : RunOutcome * list RunOutcome :=
  match script with
  | [] => (Exited 0 EmptyString EmptyString, [])
  | r :: rest => (r, rest)
  end.

Definition MockHost (cargo : bool) : Host (list RunOutcome) := {|
  chat_completions_create := fun _ messages _ w => (mock_create messages, w);
  probe := fun argv w =>
    (match argv with
     | cmd :: _ => if String.eqb cmd "cargo" && negb cargo then ProbeNotFound
                   else ProbeExited 0
     | [] => ProbeNotFound
     end, w);
  spawn := fun _ _ _ st => scripted_spawn (host st);
  mkdtemp := fun w => ("/tmp/tmpdir", w);
  mkstemp := fun suffix w => ("/tmp/tmpfile" +:+ suffix, w);
  getenv_model_name := None
|}.

Definition empty_store {W} (w : W) : Store W := mkStore w ∅ ∅.

(** ** Reading a log *)

Definition is_process_event (e : Event) : bool :=
  match e with
  | EvProbe _ _ | EvSpawn _ _ _ _ => true
  | _ => false
  end.

Definition timed_out (e : Event) : bool :=
  match e with
  | EvSpawn _ _ _ TimedOut => true
  | _ => false
  end.

Definition is_tested (e : nat * Event) : bool :=
  match snd e with
  | EvTested _ _ => true
  | _ => false
  end.

(** The timeout diagnostic of the runner of a language. *)
Definition timeout_text (language : string) : string :=
  if String.eqb language "rust" then rust_timeout else python_timeout.

Definition user_message (prompt : string) : list Message :=
  [{| role := "user"; content := prompt |}].

(** The path [create_rust_project] writes the cleaned source to. *)
Definition main_rs_path (temp_dir : string) : string :=
  path_join (path_join (path_join temp_dir "test_project") "src") "main.rs".

Definition cargo_toml_path (temp_dir : string) : string :=
  path_join (path_join temp_dir "test_project") "Cargo.toml".

(** ** The canonical task shapes of the specification *)

Inductive Shape := HelloWorld | Quicksort | FibonacciMemo | BinarySearchTree.

Definition all_shapes : list Shape :=
  [HelloWorld; Quicksort; FibonacciMemo; BinarySearchTree].

Definition shape_task (s : Shape) : string :=
  match s with
  | HelloWorld => "hello world"
  | Quicksort => "quicksort"
  | FibonacciMemo => "fibonacci with memoization"
  | BinarySearchTree => "binary search tree"
  end.

(** What the mock client answers to the prompt [generate_code] builds
    for a task in a language, on a first attempt. *)
Definition fallback (language task : string) : string :=
  mock_create (user_message (build_prompt task language None)).

(** A text matches a shape when it names what the shape asks for. *)
Definition matches_shape (s : Shape) (text : string) : bool :=
  match s with
  | HelloWorld => str_in "Hello, World!" text
  | Quicksort => str_in "quicksort" text
  | FibonacciMemo => str_in "fibonacci" text && str_in "memo" text
  | BinarySearchTree => str_in "insert" text && str_in "search" text
  end.

(** A test inside the text: a [#[test]] function in a [#[cfg(test)]]
    module, or a [test_] method of a [unittest.TestCase] class. *)
Definition has_embedded_test (language text : string) : bool :=
  if String.eqb (lower language) "rust"
  then str_in "#[cfg(test)]" text && str_in "#[test]" text
  else str_in "unittest.TestCase" text && str_in "def test_" text.

(** The words of a language a text is written in: [fn] items for Rust,
    [def] for Python. *)
Definition written_in (language text : string) : bool :=
  if String.eqb (lower language) "rust"
  then str_in "fn " text && negb (str_in "def " text)
  else str_in "def " text && negb (str_in "fn " text).

(** Round, square and curly brackets close in the order they open. *)
Fixpoint balanced_from (stack : list ascii) (s : string) : bool :=
  match s with
  | EmptyString => match stack with [] => true | _ => false end
  | String c r =>
      if Ascii.eqb c "("%char then balanced_from (")"%char :: stack) r
      else if Ascii.eqb c "["%char then balanced_from ("]"%char :: stack) r
      else if Ascii.eqb c "{"%char then balanced_from ("}"%char :: stack) r
      else if Ascii.eqb c ")"%char || Ascii.eqb c "]"%char || Ascii.eqb c "}"%char
      then match stack with
           | top :: rest => Ascii.eqb c top && balanced_from rest r
           | [] => false
           end
      else balanced_from stack r
  end.

Definition balanced (s : string) : bool := balanced_from [] s.

(** The fallback serves a shape in a language: the text is in that
    language, matches the shape and carries a test. *)
Definition fallback_serves (language : string) (s : Shape) : bool :=
  let text := fallback language (shape_task s) in
  written_in language text && matches_shape s text && has_embedded_test language text.

(** The statement of the specification for one language: at least three
    of the canonical shapes are served. *)
Definition serves_three (language : string) : Prop :=
  exists shapes : list Shape,
    List.NoDup shapes /\ (3 <= List.length shapes)%nat /\
    forall s, In s shapes -> fallback_serves language s = true.

(** The statement of the specification: both languages are served for
    at least three shapes. *)
Definition three_shapes_each : Prop :=
  serves_three "rust" /\ serves_three "python".

(** Every text the mock client can return. *)
Definition mock_texts : list string :=
  [mock_rust_quicksort; mock_rust_hello; mock_python_quicksort;
   mock_python_bst; mock_python_fibonacci; mock_python_hello].

(** ** Sample tasks and hosts *)

(** Two requests that agree on their first thirty characters. *)
Definition task_a : string := "please write me a program that does quicksort".
Definition task_b : string := "please write me a program that prints hello".

(** A host with [cargo], and one without. *)
Definition with_cargo : Host (list RunOutcome) := MockHost true.
Definition without_cargo : Host (list RunOutcome) := MockHost false.

(** A script of child processes: each entry is the next process to be
    started. *)
Definition failing (stderr : string) : RunOutcome := Exited 1 EmptyString stderr.

Definition script_fail_once : Store (list RunOutcome) :=
  empty_store [failing "error: expected one of"].

Definition script_fail_thrice : Store (list RunOutcome) :=
  empty_store [failing "SyntaxError: first"; failing "SyntaxError: second";
               failing "SyntaxError: third"].

Definition script_timeout : Store (list RunOutcome) := empty_store [TimedOut].

Definition script_quiet : Store (list RunOutcome) := empty_store [].

(** * Properties *)

(** ** Strings *)

Lemma append_nil (s : string) : EmptyString +:+ s = s.
Proof. reflexivity. Qed.

Lemma append_cons (c : ascii) (s t : string) : String c s +:+ t = String c (s +:+ t).
Proof. reflexivity. Qed.

Ltac push_append := rewrite ?append_nil, ?append_cons in *.

Lemma prefix_app (x b : string) : String.prefix x (x +:+ b) = true.
Proof.
  induction x as [|c x IH]; simpl.
  - now destruct b.
  - destruct (ascii_dec c c) as [_|Hne]; [exact IH | now elim Hne].
Qed.

Lemma str_in_here (x s : string) : String.prefix x s = true -> str_in x s = true.
Proof. intros Hp. destruct s; cbn [str_in]; rewrite Hp; reflexivity. Qed.

Lemma str_in_skip (x : string) (c : ascii) (s : string) :
  str_in x s = true -> str_in x (String c s) = true.
Proof. intros Hs. cbn [str_in]. rewrite Hs. apply orb_true_r. Qed.

Lemma str_in_append_l (x a b : string) :
  str_in x b = true -> str_in x (a +:+ b) = true.
Proof.
  intros Hb. induction a as [|c a IH]; push_append; [exact Hb|].
  now apply str_in_skip.
Qed.

(** A text occurs in whatever is built around it. *)
Lemma str_in_app (x a b : string) : str_in x (a +:+ x +:+ b) = true.
Proof.
  apply str_in_append_l, str_in_here, prefix_app.
Qed.

Lemma append_empty_r (s : string) : s +:+ EmptyString = s.
Proof. induction s as [|c s IH]; push_append; [reflexivity | now rewrite IH]. Qed.

Lemma str_in_app_r (x a : string) : str_in x (a +:+ x) = true.
Proof. rewrite <- (append_empty_r x) at 2. apply str_in_app. Qed.

Lemma append_assoc (a b c : string) : (a +:+ b) +:+ c = a +:+ (b +:+ c).
Proof. induction a as [|x a IH]; push_append; [reflexivity | now rewrite IH]. Qed.

Lemma append_inv_head (p a b : string) : p +:+ a = p +:+ b -> a = b.
Proof.
  induction p as [|c p IH]; push_append; intros Heq; [exact Heq|].
  injection Heq as Heq. now apply IH.
Qed.

Lemma split_on_nonempty (sep : ascii) (s : string) : split_on sep s <> [].
Proof.
  induction s as [|c s IH]; simpl; [discriminate|].
  destruct (Ascii.eqb c sep); [discriminate|].
  destruct (split_on sep s); [contradiction | discriminate].
Qed.

(** ['\n'.join(s.split('\n')) == s] *)
Lemma unlines_split_lines (s : string) : unlines (split_lines s) = s.
Proof.
  unfold unlines, split_lines.
  induction s as [|c s IH]; [reflexivity|].
  simpl split_on.
  destruct (Ascii.eqb c "010") eqn:Hc.
  - apply Ascii.eqb_eq in Hc. subst c.
    pose proof (split_on_nonempty "010" s) as Hne.
    destruct (split_on "010" s) as [|h t] eqn:Hs; [contradiction|].
    change (String.concat nl (EmptyString :: h :: t))
      with (nl +:+ String.concat nl (h :: t)).
    rewrite IH. reflexivity.
  - pose proof (split_on_nonempty "010" s) as Hne.
    destruct (split_on "010" s) as [|h t] eqn:Hs; [contradiction|].
    destruct t as [|h' t].
    + simpl in *. now rewrite IH.
    + change (String.concat nl (String c h :: h' :: t))
        with (String c (h +:+ nl +:+ String.concat nl (h' :: t))).
      change (String.concat nl (h :: h' :: t))
        with (h +:+ nl +:+ String.concat nl (h' :: t)) in IH.
      now rewrite IH.
Qed.

Lemma filter_all {A} (f : A -> bool) (l : list A) :
  (forall x, In x l -> f x = true) -> List.filter f l = l.
Proof.
  induction l as [|a l IH]; simpl; intros Hall; [reflexivity|].
  rewrite (Hall a (or_introl eq_refl)).
  f_equal. apply IH. intros x Hx. apply Hall. now right.
Qed.

Lemma str_in_char (c : ascii) (s : string) :
  str_in (String c EmptyString) s = has_char c s.
Proof.
  induction s as [|d s IH]; simpl; [reflexivity|].
  rewrite IH. f_equal.
  destruct (ascii_dec c d) as [->|Hne].
  - rewrite Ascii.eqb_refl. now destruct s.
  - apply Ascii.eqb_neq in Hne. now rewrite Hne.
Qed.

Lemma has_char_lstrip (c : ascii) (s : string) :
  isspace c = false -> has_char c (lstrip s) = has_char c s.
Proof.
  intros Hc. induction s as [|d s IH]; simpl; [reflexivity|].
  destruct (isspace d) eqn:Hd; [|reflexivity].
  rewrite IH.
  destruct (Ascii.eqb c d) eqn:Hcd; [|reflexivity].
  apply Ascii.eqb_eq in Hcd. congruence.
Qed.

Lemma has_char_rstrip (c : ascii) (s : string) :
  isspace c = false -> has_char c (rstrip s) = has_char c s.
Proof.
  intros Hc. induction s as [|d s IH]; simpl; [reflexivity|].
  destruct (rstrip s) as [|e r] eqn:Hr.
  - simpl in IH. rewrite <- IH.
    destruct (isspace d) eqn:Hd; simpl.
    + destruct (Ascii.eqb c d) eqn:Hcd; [|reflexivity].
      apply Ascii.eqb_eq in Hcd. congruence.
    + reflexivity.
  - rewrite <- IH. reflexivity.
Qed.

(** Stripping white space neither adds nor removes a character that is
    not white space. *)
Lemma str_in_char_strip (c : ascii) (s : string) :
  isspace c = false ->
  str_in (String c EmptyString) (strip s) = str_in (String c EmptyString) s.
Proof.
  intros Hc. rewrite !str_in_char. unfold strip.
  now rewrite has_char_rstrip, has_char_lstrip.
Qed.

Lemma last_char_append (s t : string) :
  t <> EmptyString -> last_char (s +:+ t) = last_char t.
Proof.
  intros Ht. induction s as [|c s IH]; push_append; [reflexivity|].
  simpl. destruct (s +:+ t) eqn:Hst; [|exact IH].
  destruct s; push_append; [contradiction | discriminate].
Qed.

Lemma path_join_relative (a b : string) :
  startswith "/" b = false -> exists a', path_join a b = a' +:+ b.
Proof.
  intros Hb. unfold path_join. rewrite Hb.
  destruct (String.eqb a EmptyString || endswith_slash a).
  - now exists a.
  - exists (a +:+ "/"). now rewrite append_assoc.
Qed.

Lemma main_rs_not_cargo_toml (temp_dir : string) :
  main_rs_path temp_dir <> cargo_toml_path temp_dir.
Proof.
  unfold main_rs_path, cargo_toml_path. intros Heq.
  destruct (path_join_relative (path_join (path_join temp_dir "test_project") "src")
              "main.rs" eq_refl) as [a Ha].
  destruct (path_join_relative (path_join temp_dir "test_project")
              "Cargo.toml" eq_refl) as [b Hb].
  rewrite Ha, Hb in Heq.
  apply (f_equal last_char) in Heq.
  rewrite !last_char_append in Heq by discriminate.
  discriminate Heq.
Qed.

Lemma length_append (a b : string) :
  String.length (a +:+ b) = (String.length a + String.length b)%nat.
Proof. induction a as [|c a IH]; push_append; simpl; [reflexivity | now rewrite IH]. Qed.

Lemma append_inv_tail (a b t : string) : a +:+ t = b +:+ t -> a = b.
Proof.
  revert b. induction a as [|c a IH]; intros [|d b] Heq; push_append.
  - reflexivity.
  - apply (f_equal String.length) in Heq. simpl in Heq.
    rewrite length_append in Heq. lia.
  - apply (f_equal String.length) in Heq. simpl in Heq.
    rewrite length_append in Heq. lia.
  - injection Heq as -> Heq. f_equal. now apply IH.
Qed.

Lemma str_of_nat_inj (n m : nat) : str_of_nat n = str_of_nat m -> n = m.
Proof.
  unfold str_of_nat. intros Heq.
  apply Unsigned.to_uint_inj.
  apply (f_equal NilEmpty.uint_of_string) in Heq.
  rewrite !NilEmpty.usu in Heq. now injection Heq.
Qed.

(** Attempts of one task get files of their own. *)
Lemma attempt_filename_inj (task_name language : string) (n m : nat) :
  attempt_filename task_name n language = attempt_filename task_name m language ->
  n = m.
Proof.
  unfold attempt_filename. intros Heq.
  apply append_inv_head in Heq. apply append_inv_head in Heq.
  apply append_inv_tail in Heq. now apply str_of_nat_inj.
Qed.

(** ** The runners *)

Section Runners.

Context {W : Type} {HW : Host W}.

Ltac run_step :=
  match goal with
  | |- context [probe ?a ?w] => destruct (probe a w) as [[?|] ?] eqn:?
  | |- context [spawn ?a ?c ?t ?s] => destruct (spawn a c t s) as [[? ? ?| |?] ?] eqn:?
  | |- context [mkdtemp ?w] => destruct (mkdtemp w) as [? ?] eqn:?
  | |- context [mkstemp ?x ?w] => destruct (mkstemp x w) as [? ?] eqn:?
  | |- context [Z.eqb ?x 0] => destruct (Z.eqb_spec x 0)
  | |- context [str_in ?a ?b || str_in ?c ?d] => destruct (str_in a b || str_in c d)
  | |- context [match ?x with Z0 => _ | Zpos _ => _ | Zneg _ => _ end] => destruct x
  end.

Ltac run_unfold :=
  cbv beta iota zeta delta
    [test_rust_code test_python_code check_rust_available get_python_command
     first_command create_rust_project subprocess_probe subprocess_run
     temporary_directory named_temporary_file write_tmp unlink rmtree
     try_except try_bind try_ret lift bind ret set_host negb fst snd
     host cwd_files tmp_files List.app].

Lemma test_rust_code_spec (code : string) (st : Store W) :
  let '(r, evs, st') := test_rust_code code st in
  forallb is_process_event evs = true /\
  truthy (snd r) = true /\
  cwd_files st' = cwd_files st /\
  (existsb timed_out evs = true -> r = (false, rust_timeout)).
Proof.
  destruct st as [w cwd tmp]. run_unfold.
  repeat (run_step; run_unfold);
    repeat split; try reflexivity; try discriminate.
Qed.

Lemma test_python_code_spec (code : string) (st : Store W) :
  let '(r, evs, st') := test_python_code code st in
  forallb is_process_event evs = true /\
  truthy (snd r) = true /\
  cwd_files st' = cwd_files st /\
  (existsb timed_out evs = true -> r = (false, python_timeout)).
Proof.
  destruct st as [w cwd tmp]. run_unfold.
  repeat (run_step; run_unfold);
    repeat split; try reflexivity; try discriminate.
Qed.

Ltac in_cases :=
  repeat match goal with
         | H : In _ _ |- _ => simpl in H
         | H : _ \/ _ |- _ => destruct H
         | H : False |- _ => contradiction
         | H : EvProbe _ _ = EvSpawn _ _ _ _ |- _ => discriminate H
         | H : EvSpawn _ _ _ _ = EvSpawn _ _ _ _ |- _ => injection H as ?; subst
         | H : _ :: _ = _ :: _ |- _ => discriminate H
         end.

Lemma test_rust_code_build (code : string) (st : Store W) :
  let '(r, evs, st') := test_rust_code code st in
  (forall cwd t rc out err,
      In (EvSpawn ["cargo"; "build"] cwd t (Exited rc out err)) evs ->
      rc <> 0%Z ->
      r = (false, build_failed err) /\
      forall cwd' t' o, ~ In (EvSpawn ["cargo"; "test"] cwd' t' o) evs) /\
  (forall cwd t o,
      In (EvSpawn ["cargo"; "test"] cwd t o) evs ->
      exists cwd' t' out err,
        In (EvSpawn ["cargo"; "build"] cwd' t' (Exited 0 out err)) evs).
Proof.
  destruct st as [w cwd tmp]. run_unfold.
  repeat (run_step; run_unfold); (split; [intros ? ? ? ? ? Hin Hrc | intros ? ? ? Hin]).
  all: in_cases; try congruence.
  all: try (split; [reflexivity | intros ? ? ? Hin; in_cases; congruence]).
  all: try (do 4 eexists; simpl; right; left; reflexivity).
Qed.

End Runners.

(** ** The retry controller *)

Section Controller.

Context {W : Type} {HW : Host W}.

Lemma run_tests_spec (language code : string) (st : Store W) :
  let '(r, evs, st') := run_tests language code st in
  forallb is_process_event evs = true /\
  truthy (snd r) = true /\
  cwd_files st' = cwd_files st /\
  (existsb timed_out evs = true -> r = (false, timeout_text language)).
Proof.
  unfold run_tests, timeout_text.
  destruct (String.eqb language "rust").
  - apply test_rust_code_spec.
  - apply test_python_code_spec.
Qed.

(** One iteration: the completion call, the audit file, the runner's
    child processes, the verdict. *)
Lemma attempt_body_eq (task language task_name : string) (attempt : nat)
    (previous_error : option string) (st : Store W) :
  exists code revs ok output st',
    attempt_body task language task_name attempt previous_error st =
      (code, attempt_filename task_name attempt language, (ok, output),
       EvCreate (user_message (build_prompt task language previous_error)) code
         :: EvSave (attempt_filename task_name attempt language) code
         :: (revs ++ [EvTested ok output])%list,
       st') /\
    forallb is_process_event revs = true /\
    truthy output = true /\
    cwd_files st' = <[attempt_filename task_name attempt language := code]> (cwd_files st) /\
    (existsb timed_out revs = true -> (ok, output) = (false, timeout_text language)).
Proof.
  unfold attempt_body, generate_code, write_cwd, emit, bind, ret, set_host.
  destruct (chat_completions_create _ _ _ _) as [code w].
  match goal with
  | |- context [run_tests language code ?s] =>
      pose proof (run_tests_spec language code s) as Hspec;
      destruct (run_tests language code s) as [[[ok output] revs] st']
  end.
  simpl in Hspec. destruct Hspec as (Hp & Ht & Hc & Hto).
  exists code, revs, ok, output, st'. simpl.
  repeat split; auto.
Qed.

Lemma in_tagged (a n : nat) (e : Event) (evs : list Event) :
  In (n, e) (List.map (pair a) evs) <-> n = a /\ In e evs.
Proof.
  rewrite in_map_iff. split.
  - intros (x & Hx & Hin). injection Hx as <- <-. now split.
  - intros [-> Hin]. now exists e.
Qed.

(** From fuel to the relation. *)
Lemma attempt_loop_sound (fuel : nat) task language task_name attempt previous_error code
    (st : Store W) r log st' :
  attempt_loop fuel task language task_name attempt previous_error code st
    = Some (r, log, st') ->
  loop_run task language task_name attempt previous_error code st r log st'.
Proof.
  revert attempt previous_error code st r log st'.
  induction fuel as [|fuel IH]; intros attempt previous_error code st r log st'; simpl.
  - destruct (Nat.leb_spec attempt max_attempts); [discriminate|].
    intros [= <- <- <-]. now constructor.
  - destruct (Nat.leb_spec attempt max_attempts) as [Hle|Hgt].
    + destruct (attempt_body _ _ _ _ _ _) as [[[[code' filename] [ok output]] evs] st1] eqn:Hbody.
      destruct ok.
      * intros [= <- <- <-]. now apply loop_pass.
      * destruct (attempt_loop fuel _ _ _ _ _ _ _) as [[[r' log'] st2]|] eqn:Hrest;
          [|discriminate].
        intros [= <- <- <-]. eapply loop_retry; eauto.
    + intros [= <- <- <-]. now constructor.
Qed.

(** The loop ends before its fuel does. *)
Lemma attempt_loop_total (fuel : nat) task language task_name attempt previous_error code
    (st : Store W) :
  (max_attempts + 1 - attempt <= fuel)%nat ->
  exists x, attempt_loop fuel task language task_name attempt previous_error code st = Some x.
Proof.
  revert attempt previous_error code st.
  induction fuel as [|fuel IH]; intros attempt previous_error code st Hfuel; simpl.
  - destruct (Nat.leb_spec attempt max_attempts); [lia | eauto].
  - destruct (Nat.leb_spec attempt max_attempts) as [Hle|Hgt]; [|eauto].
    destruct (attempt_body _ _ _ _ _ _) as [[[[code' filename] [ok output]] evs] st1].
    destruct ok; [eauto|].
    destruct (IH (S attempt) (Some output) (Some code') st1) as [[[r log] st2] Hx]; [lia|].
    rewrite Hx. eauto.
Qed.

(** [solve_task] returns: the loop is entered with [attempt = 1] and
    [max_attempts] iterations of fuel. *)
Lemma solve_task_returns (task : string) (st : Store W) :
  exists run, solve_task task st = Some run.
Proof.
  unfold solve_task.
  destruct (resolve task st) as [[[language task'] setup] st1].
  destruct (attempt_loop_total max_attempts task' language (task_name_of task') 1 None None st1)
    as [[[r log] st2] Hx]; [unfold max_attempts; lia|].
  rewrite Hx. eauto.
Qed.

Lemma solve_task_loop (task : string) (st : Store W) (run : Run) :
  solve_task task st = Some run ->
  exists st1,
    loop_run (run_task run) (run_language run) (task_name_of (run_task run))
      1 None None st1 (run_result run) (run_log run) (run_store run).
Proof.
  unfold solve_task.
  destruct (resolve task st) as [[[language task'] setup] st1].
  destruct (attempt_loop _ _ _ _ _ _ _ _) as [[[r log] st2]|] eqn:Hloop; [|discriminate].
  intros [= <-]. simpl. exists st1. eapply attempt_loop_sound; eauto.
Qed.

(** The language is one of the two, and the text is the one given unless
    the language was downgraded. *)
Lemma resolve_spec (task : string) (st : Store W) :
  let '(language, task', _, _) := resolve task st in
  (language = "rust" /\ task' = task /\ str_in "rust" (lower task) = true) \/
  (language = "python" /\ task' = task /\ str_in "rust" (lower task) = false) \/
  (language = "python" /\ str_in "rust" (lower task) = true /\
   task' = replace "Rust" "Python" (replace "rust" "python" task)).
Proof.
  unfold resolve, check_rust_available, subprocess_probe, bind, ret.
  destruct (str_in "rust" (lower task)); simpl; [|tauto].
  destruct (probe _ _) as [[rc|] w]; [destruct rc|]; simpl; tauto.
Qed.

Lemma solve_task_resolved (task : string) (st : Store W) (run : Run) :
  solve_task task st = Some run ->
  (run_language run = "rust" /\ run_task run = task) \/
  (run_language run = "python" /\ run_task run = task) \/
  (run_language run = "python" /\ str_in "rust" (lower task) = true /\
   run_task run = replace "Rust" "Python" (replace "rust" "python" task)).
Proof.
  unfold solve_task. pose proof (resolve_spec task st) as Hres.
  destruct (resolve task st) as [[[language task'] setup] st1].
  destruct (attempt_loop _ _ _ _ _ _ _ _) as [[[r log] st2]|]; [|discriminate].
  intros [= <-]. simpl. tauto.
Qed.

End Controller.

(** ** What the loop logs *)

Section Log.

Context {W : Type} {HW : Host W}.

Variables task language task_name : string.

Ltac body_facts Hbody :=
  let code := fresh "gen" in
  let revs := fresh "revs" in
  let ok := fresh "ok" in
  let output := fresh "out" in
  let st1 := fresh "st" in
  let Heq := fresh "Heq" in
  let Hproc := fresh "Hproc" in
  let Htruthy := fresh "Htruthy" in
  let Hcwd := fresh "Hcwd" in
  let Hto := fresh "Hto" in
  match type of Hbody with
  | attempt_body ?t ?l ?tn ?a ?p ?s = _ =>
      destruct (attempt_body_eq t l tn a p s)
        as (code & revs & ok & output & st1 & Heq & Hproc & Htruthy & Hcwd & Hto);
      rewrite Heq in Hbody;
      injection Hbody as ? ? ? ? ? ?; subst
  end.

Lemma process_not_tested (revs : list Event) (ok : bool) (output : string) :
  forallb is_process_event revs = true -> ~ In (EvTested ok output) revs.
Proof.
  intros Hall Hin. rewrite forallb_forall in Hall.
  specialize (Hall _ Hin). discriminate.
Qed.

Lemma process_not_create (revs : list Event) msgs (text : string) :
  forallb is_process_event revs = true -> ~ In (EvCreate msgs text) revs.
Proof.
  intros Hall Hin. rewrite forallb_forall in Hall.
  specialize (Hall _ Hin). discriminate.
Qed.

Lemma process_not_save (revs : list Event) (f text : string) :
  forallb is_process_event revs = true -> ~ In (EvSave f text) revs.
Proof.
  intros Hall Hin. rewrite forallb_forall in Hall.
  specialize (Hall _ Hin). discriminate.
Qed.

Lemma tested_of_process (a : nat) (revs : list Event) :
  forallb is_process_event revs = true ->
  List.filter is_tested (List.map (pair a) revs) = [].
Proof.
  induction revs as [|e revs IH]; simpl; [reflexivity|].
  intros Hall. apply andb_true_iff in Hall as [He Hall].
  unfold is_tested at 1. simpl. destruct e; try discriminate; now apply IH.
Qed.

(** The verdict an iteration logs is the runner's. *)
Lemma tested_in_body (revs : list Event) msgs gen f ok output ok' output' :
  forallb is_process_event revs = true ->
  In (EvTested ok' output')
     (EvCreate msgs gen :: EvSave f gen :: (revs ++ [EvTested ok output])%list) ->
  ok' = ok /\ output' = output.
Proof.
  intros Hproc [Hin|[Hin|Hin]]; try discriminate.
  apply in_app_or in Hin as [Hin|[Hin|[]]].
  - now apply process_not_tested in Hin.
  - now injection Hin as <- <-.
Qed.

(** Every entry carries a counter value between the one the loop was
    entered with and the ceiling. *)
Lemma loop_tags attempt previous_error code (st : Store W) r log st' :
  loop_run task language task_name attempt previous_error code st r log st' ->
  forall n e, In (n, e) log -> (attempt <= n <= max_attempts)%nat.
Proof.
  induction 1 as [| a p c s c' f o evs s' Hle Hbody
                  | a p c s c' f o evs s' r log s'' Hle Hbody Hrest IH];
    intros n e Hin.
  - destruct Hin.
  - apply in_tagged in Hin as [-> _]. lia.
  - apply in_app_or in Hin as [Hin|Hin].
    + apply in_tagged in Hin as [-> _]. lia.
    + apply IH in Hin. lia.
Qed.

Lemma loop_attempts attempt previous_error code (st : Store W) r log st' :
  loop_run task language task_name attempt previous_error code st r log st' ->
  (Nat.min attempt max_attempts <= attempts r <= max_attempts)%nat.
Proof.
  induction 1; simpl in *; unfold max_attempts in *; lia.
Qed.

(** The verdicts are logged for the attempts from the first to the one
    the result reports, once each and in order. *)
Lemma loop_verdicts attempt previous_error code (st : Store W) r log st' :
  loop_run task language task_name attempt previous_error code st r log st' ->
  List.map fst (List.filter is_tested log) = seq attempt (S (attempts r) - attempt).
Proof.
  induction 1 as [| a p c s c' f o evs s' Hle Hbody
                  | a p c s c' f o evs s' r log s'' Hle Hbody Hrest IH].
  - simpl. replace (S max_attempts - attempt)%nat with 0%nat by lia. reflexivity.
  - body_facts Hbody. cbn [List.map List.filter is_tested snd].
    rewrite List.map_app, List.filter_app, tested_of_process by assumption.
    cbn [attempts]. replace (S a - a)%nat with 1%nat by lia. reflexivity.
  - body_facts Hbody. cbn [List.map List.filter is_tested snd List.app].
    rewrite List.filter_app, (List.map_app (pair a)), List.filter_app,
      tested_of_process by assumption.
    rewrite List.map_app.
    cbn [List.map List.filter is_tested snd List.app fst].
    rewrite IH.
    apply loop_attempts in Hrest.
    replace (S (attempts r) - a)%nat with (S (S (attempts r) - S a)) by lia.
    reflexivity.
Qed.

Lemma sorted_app (l1 l2 : list nat) :
  StronglySorted Nat.le l1 -> StronglySorted Nat.le l2 ->
  (forall x y, In x l1 -> In y l2 -> (x <= y)%nat) ->
  StronglySorted Nat.le (l1 ++ l2)%list.
Proof.
  induction l1 as [|a l1 IH]; simpl; intros H1 H2 Hle; [exact H2|].
  apply StronglySorted_inv in H1 as [H1 Ha].
  constructor.
  - apply IH; [assumption | assumption |].
    intros x y Hx Hy. apply Hle; [now right | assumption].
  - apply List.Forall_app. split; [exact Ha|].
    apply List.Forall_forall. intros y Hy. apply Hle; [now left | assumption].
Qed.

Lemma sorted_constant (a : nat) (evs : list Event) :
  StronglySorted Nat.le (List.map fst (List.map (pair a) evs)).
Proof.
  induction evs as [|e evs IH]; simpl; constructor; [exact IH|].
  apply List.Forall_forall. intros x Hx.
  apply in_map_iff in Hx as ([n e'] & <- & Hin).
  apply in_tagged in Hin as [-> _]. simpl. constructor.
Qed.

(** The counter never goes down. *)
Lemma loop_monotone attempt previous_error code (st : Store W) r log st' :
  loop_run task language task_name attempt previous_error code st r log st' ->
  StronglySorted Nat.le (List.map fst log).
Proof.
  induction 1 as [| a p c s c' f o evs s' Hle Hbody
                  | a p c s c' f o evs s' r log s'' Hle Hbody Hrest IH].
  - constructor.
  - apply sorted_constant.
  - rewrite map_app. apply sorted_app; [apply sorted_constant | exact IH |].
    intros x y Hx Hy.
    apply in_map_iff in Hx as ([n e] & <- & Hx). apply in_tagged in Hx as [-> _].
    apply in_map_iff in Hy as ([m e'] & <- & Hy).
    apply (loop_tags _ _ _ _ _ _ _ Hrest) in Hy. simpl. lia.
Qed.

(** A pass ends the run. *)
Lemma loop_passed attempt previous_error code (st : Store W) r log st' :
  loop_run task language task_name attempt previous_error code st r log st' ->
  forall k output, In (k, EvTested true output) log ->
  (exists gen f, r = Success k gen f output) /\
  (forall n e, In (n, e) log -> (n <= k)%nat).
Proof.
  induction 1 as [| a p c s c' f o evs s' Hle Hbody
                  | a p c s c' f o evs s' r log s'' Hle Hbody Hrest IH];
    intros k output Hin.
  - destruct Hin.
  - body_facts Hbody.
    apply in_tagged in Hin as [-> Hin].
    apply tested_in_body in Hin as [_ ->]; [|assumption].
    split; [eauto|].
    intros n e Hn. apply in_tagged in Hn as [-> _]. lia.
  - body_facts Hbody.
    apply in_app_or in Hin as [Hin|Hin].
    + apply in_tagged in Hin as [-> Hin].
      apply tested_in_body in Hin as [Hok _]; [discriminate | assumption].
    + pose proof (loop_tags _ _ _ _ _ _ _ Hrest _ _ Hin) as Hk.
      destruct (IH _ _ Hin) as [Hr Hall]. split; [exact Hr|].
      intros n e Hn. apply in_app_or in Hn as [Hn|Hn].
      * apply in_tagged in Hn as [-> _]. lia.
      * eauto.
Qed.

(** A failure on the last attempt ends the run with its diagnostic. *)
Lemma loop_failed attempt previous_error code (st : Store W) r log st' :
  loop_run task language task_name attempt previous_error code st r log st' ->
  forall d, In (max_attempts, EvTested false d) log ->
  exists gen, r = Failure max_attempts (Some d) (Some gen).
Proof.
  induction 1 as [| a p c s c' f o evs s' Hle Hbody
                  | a p c s c' f o evs s' r log s'' Hle Hbody Hrest IH];
    intros d Hin.
  - destruct Hin.
  - body_facts Hbody.
    apply in_tagged in Hin as [-> Hin].
    apply tested_in_body in Hin as [Hok _]; [discriminate | assumption].
  - body_facts Hbody.
    apply in_app_or in Hin as [Hin|Hin].
    + apply in_tagged in Hin as [<- Hin].
      apply tested_in_body in Hin as [_ ->]; [|assumption].
      inversion Hrest; subst; try lia. eauto.
    + eauto.
Qed.

(** The loop, entered below the ceiling, starts with a completion call
    that carries the diagnostic it was handed. *)
Lemma loop_head attempt previous_error code (st : Store W) r log st' :
  loop_run task language task_name attempt previous_error code st r log st' ->
  (attempt <= max_attempts)%nat ->
  exists gen,
    In (attempt, EvCreate (user_message (build_prompt task language previous_error)) gen) log.
Proof.
  destruct 1 as [| a p c s c' f o evs s' Hle Hbody
                 | a p c s c' f o evs s' r log s'' Hle Hbody Hrest]; intros Ha.
  - lia.
  - body_facts Hbody. eexists. apply in_tagged. split; [reflexivity | left; reflexivity].
  - body_facts Hbody. eexists. apply in_or_app. left.
    apply in_tagged. split; [reflexivity | left; reflexivity].
Qed.

(** The diagnostic of a failed attempt goes into the next prompt. *)
Lemma loop_feedback attempt previous_error code (st : Store W) r log st' :
  loop_run task language task_name attempt previous_error code st r log st' ->
  forall k d, In (k, EvTested false d) log -> (k < max_attempts)%nat ->
  truthy d = true /\
  exists gen,
    In (S k, EvCreate (user_message (build_prompt task language (Some d))) gen) log.
Proof.
  induction 1 as [| a p c s c' f o evs s' Hle Hbody
                  | a p c s c' f o evs s' r log s'' Hle Hbody Hrest IH];
    intros k d Hin Hk.
  - destruct Hin.
  - body_facts Hbody.
    apply in_tagged in Hin as [-> Hin].
    apply tested_in_body in Hin as [Hok _]; [discriminate | assumption].
  - body_facts Hbody.
    apply in_app_or in Hin as [Hin|Hin].
    + apply in_tagged in Hin as [-> Hin].
      apply tested_in_body in Hin as [_ ->]; [|assumption].
      split; [assumption|].
      destruct (loop_head _ _ _ _ _ _ _ Hrest) as [gen' Hgen]; [lia|].
      exists gen'. apply in_or_app. now right.
    + destruct (IH _ _ Hin Hk) as [Ht [gen' Hgen]]. split; [exact Ht|].
      exists gen'. apply in_or_app. now right.
Qed.

Lemma in_timed_out (revs : list Event) argv cwd t :
  In (EvSpawn argv cwd t TimedOut) revs -> existsb timed_out revs = true.
Proof.
  intros Hin. apply existsb_exists. now exists (EvSpawn argv cwd t TimedOut).
Qed.

(** An attempt with a child process that outlived its timeout is a
    failed attempt, with the timeout text for diagnostic. *)
Lemma loop_timeout attempt previous_error code (st : Store W) r log st' :
  loop_run task language task_name attempt previous_error code st r log st' ->
  forall k argv cwd t, In (k, EvSpawn argv cwd t TimedOut) log ->
  In (k, EvTested false (timeout_text language)) log.
Proof.
  assert (Hbody_to : forall (a : nat) msgs gen f (revs : list Event) ok out
                            (k : nat) argv cwd t,
    (existsb timed_out revs = true -> (ok, out) = (false, timeout_text language)) ->
    In (k, EvSpawn argv cwd t TimedOut)
       (List.map (pair a)
          (EvCreate msgs gen :: EvSave f gen :: (revs ++ [EvTested ok out])%list)) ->
    In (k, EvTested false (timeout_text language))
       (List.map (pair a)
          (EvCreate msgs gen :: EvSave f gen :: (revs ++ [EvTested ok out])%list))).
  { intros a msgs gen f revs ok out k argv cwd t Hto Hin.
    apply in_tagged in Hin as [-> [Hin|[Hin|Hin]]]; try discriminate.
    apply in_app_or in Hin as [Hin|[Hin|[]]]; [|discriminate].
    apply in_timed_out in Hin. apply Hto in Hin. injection Hin as -> ->.
    apply in_tagged. split; [reflexivity|].
    right. right. apply in_or_app. right. now left. }
  induction 1 as [| a p c s c' f o evs s' Hle Hbody
                  | a p c s c' f o evs s' r log s'' Hle Hbody Hrest IH];
    intros k argv cwd t Hin.
  - destruct Hin.
  - body_facts Hbody. eapply Hbody_to; eauto.
  - body_facts Hbody.
    apply in_app_or in Hin as [Hin|Hin]; apply in_or_app.
    + left. eapply Hbody_to; eauto.
    + right. eauto.
Qed.

(** The loop writes to the audit files of the attempts it makes, and to
    nothing else in the working directory. *)
Lemma loop_frame attempt previous_error code (st : Store W) r log st' :
  loop_run task language task_name attempt previous_error code st r log st' ->
  forall f,
    (forall n, (attempt <= n)%nat -> f <> attempt_filename task_name n language) ->
    cwd_files st' !! f = cwd_files st !! f.
Proof.
  induction 1 as [| a p c s c' f o evs s' Hle Hbody
                  | a p c s c' f o evs s' r log s'' Hle Hbody Hrest IH];
    intros f0 Hf0.
  - reflexivity.
  - body_facts Hbody. rewrite Hcwd.
    apply lookup_insert_ne. intros Hname. now apply (Hf0 a).
  - body_facts Hbody. rewrite IH by (intros n Hn; apply Hf0; lia).
    rewrite Hcwd. apply lookup_insert_ne. intros Hname. now apply (Hf0 a).
Qed.

Lemma save_in_body (revs : list Event) msgs gen f ok output f' text :
  forallb is_process_event revs = true ->
  In (EvSave f' text)
     (EvCreate msgs gen :: EvSave f gen :: (revs ++ [EvTested ok output])%list) ->
  f' = f /\ text = gen.
Proof.
  intros Hproc [Hin|[Hin|Hin]]; try discriminate.
  - now injection Hin as <- <-.
  - apply in_app_or in Hin as [Hin|[Hin|[]]]; [|discriminate].
    now apply process_not_save in Hin.
Qed.

(** Each audit file is named after the task and the attempt, and still
    holds the text of that attempt when the run ends. *)
Lemma loop_saves attempt previous_error code (st : Store W) r log st' :
  loop_run task language task_name attempt previous_error code st r log st' ->
  forall n f text, In (n, EvSave f text) log ->
  f = attempt_filename task_name n language /\
  cwd_files st' !! f = Some text.
Proof.
  induction 1 as [| a p c s c' f o evs s' Hle Hbody
                  | a p c s c' f o evs s' r log s'' Hle Hbody Hrest IH];
    intros n f0 text Hin.
  - destruct Hin.
  - body_facts Hbody.
    apply in_tagged in Hin as [-> Hin].
    apply save_in_body in Hin as [-> ->]; [|assumption].
    split; [reflexivity|]. rewrite Hcwd. apply lookup_insert_eq.
  - body_facts Hbody.
    apply in_app_or in Hin as [Hin|Hin]; [|eauto].
    apply in_tagged in Hin as [-> Hin].
    apply save_in_body in Hin as [-> ->]; [|assumption].
    split; [reflexivity|].
    rewrite (loop_frame _ _ _ _ _ _ _ Hrest).
    + rewrite Hcwd. apply lookup_insert_eq.
    + intros n Hn Hname. apply attempt_filename_inj in Hname. lia.
Qed.

(** Every attempt the loop makes saves its text. *)
Lemma loop_saves_head attempt previous_error code (st : Store W) r log st' :
  loop_run task language task_name attempt previous_error code st r log st' ->
  (attempt <= max_attempts)%nat ->
  exists text, In (attempt, EvSave (attempt_filename task_name attempt language) text) log.
Proof.
  destruct 1 as [| a p c s c' f o evs s' Hle Hbody
                 | a p c s c' f o evs s' r log s'' Hle Hbody Hrest]; intros Ha.
  - lia.
  - body_facts Hbody. eexists. apply in_tagged.
    split; [reflexivity | right; left; reflexivity].
  - body_facts Hbody. eexists. apply in_or_app. left.
    apply in_tagged. split; [reflexivity | right; left; reflexivity].
Qed.

End Log.

(** ** The retry controller: what [solve_task] guarantees *)

Section SolveTask.

Context {W : Type} {HW : Host W}.

(** C1. Whatever the task: if the runner ([test_rust_code] or
    [test_python_code]) reports a pass on attempt [k], then [solve_task]
    returns a result with [success = true] and [attempts = k], with
    [1 <= k <= 3], and nothing (no completion call, no file, no child
    process, no verdict) is logged for an attempt after [k]. *)
Theorem solve_task_pass (task : string) (st : Store W) :
  exists run,
    solve_task task st = Some run /\
    forall k output,
      In (k, EvTested true output) (run_log run) ->
      success (run_result run) = true /\
      attempts (run_result run) = k /\
      (1 <= k <= 3)%nat /\
      forall n e, In (n, e) (run_log run) -> (n <= k)%nat.
Proof.
  destruct (solve_task_returns task st) as [run Hrun].
  exists run. split; [exact Hrun|].
  destruct (solve_task_loop _ _ _ Hrun) as [st1 Hloop].
  intros k output Hin.
  pose proof (loop_tags _ _ _ _ _ _ _ _ _ _ Hloop _ _ Hin) as Hk.
  destruct (loop_passed _ _ _ _ _ _ _ _ _ _ Hloop _ _ Hin) as [(gen & f & Hr) Hall].
  rewrite Hr. simpl. unfold max_attempts in Hk. repeat split; auto; lia.
Qed.

(** C2. Whatever the task: if the runner reports a failure on attempts
    1, 2 and 3, then [solve_task] returns a result with [success = false],
    [attempts = 3] and, for [final_error], the diagnostic the runner gave
    on the third attempt. *)
Theorem solve_task_fail (task : string) (st : Store W) :
  exists run,
    solve_task task st = Some run /\
    forall d1 d2 d3,
      In (1%nat, EvTested false d1) (run_log run) ->
      In (2%nat, EvTested false d2) (run_log run) ->
      In (3%nat, EvTested false d3) (run_log run) ->
      success (run_result run) = false /\
      attempts (run_result run) = 3%nat /\
      final_error (run_result run) = Some d3.
Proof.
  destruct (solve_task_returns task st) as [run Hrun].
  exists run. split; [exact Hrun|].
  destruct (solve_task_loop _ _ _ Hrun) as [st1 Hloop].
  intros d1 d2 d3 _ _ H3.
  destruct (loop_failed _ _ _ _ _ _ _ _ _ _ Hloop _ H3) as [gen Hr].
  rewrite Hr. now repeat split.
Qed.

(** C3. Whatever the task and whatever the runner answers, [solve_task]
    returns, and returns one result; the counter logged with the calls
    never decreases; the verdicts are those of attempts 1, 2, ... up to
    the [attempts] of the result, one each; and [1 <= attempts <= 3]. *)
Theorem solve_task_terminal (task : string) (st : Store W) :
  exists run,
    solve_task task st = Some run /\
    (forall run', solve_task task st = Some run' -> run' = run) /\
    StronglySorted Nat.le (List.map fst (run_log run)) /\
    List.map fst (List.filter is_tested (run_log run))
      = seq 1 (attempts (run_result run)) /\
    (1 <= attempts (run_result run) <= 3)%nat.
Proof.
  destruct (solve_task_returns task st) as [run Hrun].
  exists run. split; [exact Hrun|].
  destruct (solve_task_loop _ _ _ Hrun) as [st1 Hloop].
  split; [|split; [|split]].
  - intros run' Hrun'. congruence.
  - eapply loop_monotone; eauto.
  - rewrite (loop_verdicts _ _ _ _ _ _ _ _ _ _ Hloop).
    f_equal. lia.
  - apply loop_attempts in Hloop. unfold max_attempts in Hloop. simpl in Hloop. lia.
Qed.

Lemma build_prompt_correction (task language d : string) :
  truthy d = true ->
  build_prompt task language (Some d)
    = build_prompt task language None +:+ correction d.
Proof. intros Hd. unfold build_prompt. now rewrite Hd. Qed.

Lemma str_in_correction (base d : string) : str_in d (base +:+ correction d) = true.
Proof.
  unfold correction.
  do 5 apply str_in_append_l.
  apply str_in_here, prefix_app.
Qed.

(** C4. Whatever the task: when the runner reports a failure with
    diagnostic [d] on an attempt [k < 3], the completion call of attempt
    [k + 1] is made with one user message whose content is the prompt for
    the task followed by the correction instruction quoting [d]; so [d]
    occurs in it verbatim. *)
Theorem solve_task_feedback (task : string) (st : Store W) :
  exists run,
    solve_task task st = Some run /\
    forall k d,
      (k < 3)%nat ->
      In (k, EvTested false d) (run_log run) ->
      exists prompt gen,
        In (S k, EvCreate [{| role := "user"; content := prompt |}] gen) (run_log run) /\
        prompt = build_prompt (run_task run) (run_language run) None +:+ correction d /\
        str_in d prompt = true.
Proof.
  destruct (solve_task_returns task st) as [run Hrun].
  exists run. split; [exact Hrun|].
  destruct (solve_task_loop _ _ _ Hrun) as [st1 Hloop].
  intros k d Hk Hin.
  destruct (loop_feedback _ _ _ _ _ _ _ _ _ _ Hloop _ _ Hin Hk) as [Hd [gen Hgen]].
  exists (build_prompt (run_task run) (run_language run) (Some d)), gen.
  split; [exact Hgen|].
  rewrite (build_prompt_correction _ _ _ Hd).
  split; [reflexivity | apply str_in_correction].
Qed.

End SolveTask.

(** ** What the runners guarantee *)

Section RunnerProperties.

Context {W : Type} {HW : Host W}.

(** C5. Whatever the source text: if [cargo build] exits with a code
    other than 0, [test_rust_code] returns [(false, d)] where [d] is
    "Build failed:" followed by the error stream of the build (so the
    stream occurs in [d]) and [cargo test] is not started; and whenever
    [cargo test] is started, [cargo build] has exited with code 0. *)
Theorem test_rust_code_build_first (code : string) (st : Store W) r evs st' :
  test_rust_code code st = (r, evs, st') ->
  (forall cwd t rc out err,
      In (EvSpawn ["cargo"; "build"] cwd t (Exited rc out err)) evs ->
      rc <> 0%Z ->
      r = (false, build_failed err) /\
      str_in err (snd r) = true /\
      forall cwd' t' o, ~ In (EvSpawn ["cargo"; "test"] cwd' t' o) evs) /\
  (forall cwd t o,
      In (EvSpawn ["cargo"; "test"] cwd t o) evs ->
      exists cwd' t' out err,
        In (EvSpawn ["cargo"; "build"] cwd' t' (Exited 0 out err)) evs).
Proof.
  intros Hrun. pose proof (test_rust_code_build code st) as Hspec.
  rewrite Hrun in Hspec. destruct Hspec as [Hfail Honly].
  split; [|exact Honly].
  intros cwd t rc out err Hin Hrc.
  destruct (Hfail _ _ _ _ _ Hin Hrc) as [-> Hnone].
  repeat split; [|exact Hnone].
  apply str_in_append_l, str_in_app_r.
Qed.

Lemma rust_timeout_distinct (e : string) :
  rust_timeout <> build_failed e /\ rust_timeout <> tests_failed e /\
  rust_timeout <> syntax_error e /\ rust_timeout <> runtime_error e /\
  rust_timeout <> error_text e /\ rust_timeout <> rust_missing.
Proof. repeat split; intros Heq; vm_compute in Heq; discriminate Heq. Qed.

Lemma python_timeout_distinct (e : string) :
  python_timeout <> build_failed e /\ python_timeout <> tests_failed e /\
  python_timeout <> syntax_error e /\ python_timeout <> runtime_error e /\
  python_timeout <> error_text e /\ python_timeout <> rust_missing.
Proof. repeat split; intros Heq; vm_compute in Heq; discriminate Heq. Qed.

(** C6. When a child process of a runner outlives its timeout, the
    runner returns [(false, d)] with [d] the timeout text of its language;
    that text differs from every build-failure, test-failure,
    syntax-error and runtime-error diagnostic; and in [solve_task] such an
    attempt [k] is a failed attempt like any other: below the ceiling the
    next attempt's prompt quotes the timeout text, at the ceiling the
    result is the failure with [attempts = 3] and that text. *)
Theorem timeout_is_its_own_failure (task code : string) (st st0 : Store W) :
  (forall r evs st' argv cwd t,
      test_rust_code code st = (r, evs, st') ->
      In (EvSpawn argv cwd t TimedOut) evs -> r = (false, rust_timeout)) /\
  (forall r evs st' argv cwd t,
      test_python_code code st = (r, evs, st') ->
      In (EvSpawn argv cwd t TimedOut) evs -> r = (false, python_timeout)) /\
  (forall language e,
      timeout_text language <> build_failed e /\
      timeout_text language <> tests_failed e /\
      timeout_text language <> syntax_error e /\
      timeout_text language <> runtime_error e) /\
  exists run,
    solve_task task st0 = Some run /\
    forall k argv cwd t,
      In (k, EvSpawn argv cwd t TimedOut) (run_log run) ->
      let d := timeout_text (run_language run) in
      In (k, EvTested false d) (run_log run) /\
      ((k < 3)%nat ->
       exists prompt gen,
         In (S k, EvCreate [{| role := "user"; content := prompt |}] gen) (run_log run) /\
         str_in d prompt = true) /\
      (k = 3%nat ->
       success (run_result run) = false /\
       attempts (run_result run) = 3%nat /\
       final_error (run_result run) = Some d).
Proof.
  split; [|split; [|split]].
  - intros r evs st' argv cwd t Hrun Hin.
    pose proof (test_rust_code_spec code st) as Hspec. rewrite Hrun in Hspec.
    destruct Hspec as (_ & _ & _ & Hto). eapply Hto, in_timed_out, Hin.
  - intros r evs st' argv cwd t Hrun Hin.
    pose proof (test_python_code_spec code st) as Hspec. rewrite Hrun in Hspec.
    destruct Hspec as (_ & _ & _ & Hto). eapply Hto, in_timed_out, Hin.
  - intros language e. unfold timeout_text.
    destruct (String.eqb language "rust").
    + pose proof (rust_timeout_distinct e). tauto.
    + pose proof (python_timeout_distinct e). tauto.
  - destruct (solve_task_returns task st0) as [run Hrun].
    exists run. split; [exact Hrun|].
    destruct (solve_task_loop _ _ _ Hrun) as [st1 Hloop].
    intros k argv cwd t Hin d.
    pose proof (loop_timeout _ _ _ _ _ _ _ _ _ _ Hloop _ _ _ _ Hin) as Htested.
    fold d in Htested.
    split; [exact Htested|]. split.
    + intros Hk.
      destruct (loop_feedback _ _ _ _ _ _ _ _ _ _ Hloop _ _ Htested Hk) as [Hd [gen Hgen]].
      exists (build_prompt (run_task run) (run_language run) (Some d)), gen.
      split; [exact Hgen|].
      rewrite (build_prompt_correction _ _ _ Hd). apply str_in_correction.
    + intros ->.
      destruct (loop_failed _ _ _ _ _ _ _ _ _ _ Hloop _ Htested) as [gen Hr].
      rewrite Hr. now repeat split.
Qed.

Lemma dependency_comment_stripped (line : string) :
  dependency_comment line
  = startswith "//" (strip line)
    && (str_in "=" (strip line) || str_in "[" (strip line)).
Proof.
  unfold dependency_comment.
  now rewrite !str_in_char_strip by reflexivity.
Qed.

(** C9. Whatever the source text, [create_rust_project] writes to
    [main.rs] the lines of the text, in order and joined by newlines,
    whose stripped form does not both start with [//] and contain [=] or
    [[]; so the comment [// index arr[0] here], no dependency, is dropped
    (and adds nothing to the manifest); and a text none of whose lines is
    such a [//] line is written as it is. *)
Theorem create_rust_project_main_rs (code temp_dir : string) (st : Store W) :
  let kept line :=
    negb (startswith "//" (strip line)
          && (str_in "=" (strip line) || str_in "[" (strip line))) in
  let done := create_rust_project code temp_dir st in
  tmp_files (snd done) !! main_rs_path temp_dir
    = Some (unlines (List.filter kept (split_lines code))) /\
  snd (fst (fst done)) = unlines (List.filter kept (split_lines code)) /\
  (let sample := unlines ["fn main() {"; "    // index arr[0] here"; "}"] in
   let done' := create_rust_project sample temp_dir st in
   tmp_files (snd done') !! main_rs_path temp_dir = Some (unlines ["fn main() {"; "}"]) /\
   tmp_files (snd done') !! cargo_toml_path temp_dir = Some cargo_toml_header) /\
  ((forall line, In line (split_lines code) -> kept line = true) ->
   tmp_files (snd done) !! main_rs_path temp_dir = Some code).
Proof.
  intros kept done.
  assert (Hclean : clean code = unlines (List.filter kept (split_lines code))).
  { unfold clean, kept. f_equal. apply filter_ext. intros line.
    now rewrite dependency_comment_stripped. }
  assert (Hmain : tmp_files (snd done) !! main_rs_path temp_dir = Some (clean code)).
  { subst done. unfold create_rust_project, write_tmp, bind, ret, main_rs_path. simpl.
    apply lookup_insert_eq. }
  split; [now rewrite <- Hclean|]. split; [now rewrite <- Hclean|]. split.
  - intros sample done'.
    pose proof (main_rs_not_cargo_toml temp_dir) as Hne.
    subst done'. unfold create_rust_project, write_tmp, bind, ret. simpl.
    fold (main_rs_path temp_dir). fold (cargo_toml_path temp_dir).
    split.
    + rewrite lookup_insert_eq. reflexivity.
    + rewrite lookup_insert_ne by exact Hne. rewrite lookup_insert_eq. reflexivity.
  - intros Hall. rewrite Hmain, Hclean.
    rewrite filter_all by exact Hall.
    now rewrite unlines_split_lines.
Qed.

End RunnerProperties.

(** ** The language downgrade *)

(** C7, at the task "write quicksort in RUST" on a host without [cargo]:
    the language is resolved to ["python"], but the task text is left as
    it was, since [replace] is given the spellings [rust] and [Rust] only;
    the text still names Rust, so the mock client answers the Python
    prompt with the Rust quicksort, which is saved as a [.py] file.  With
    the spelling [Rust] the same task is rewritten and gets the Python
    quicksort. *)
Theorem downgrade_keeps_upper_case_keyword :
  (exists run,
      solve_task (HW := without_cargo) "write quicksort in RUST" script_quiet = Some run /\
      run_language run = "python" /\
      run_task run = "write quicksort in RUST" /\
      str_in "rust" (lower (run_task run)) = true /\
      In (1%nat, EvSave "write_quicksort_in_rust_attempt_1.py" mock_rust_quicksort)
         (run_log run)) /\
  (exists run,
      solve_task (HW := without_cargo) "write quicksort in Rust" script_quiet = Some run /\
      run_language run = "python" /\
      run_task run = "write quicksort in Python" /\
      str_in "rust" (lower (run_task run)) = false /\
      In (1%nat, EvSave "write_quicksort_in_python_attempt_1.py" mock_python_quicksort)
         (run_log run)).
Proof.
  split.
  - eexists. split; [vm_compute; reflexivity|].
    cbn [run_language run_task run_log].
    repeat split; try reflexivity.
    right. left. reflexivity.
  - eexists. split; [vm_compute; reflexivity|].
    cbn [run_language run_task run_log].
    repeat split; try reflexivity.
    right. left. reflexivity.
Qed.

(** ** The mock completion client *)

Lemma rust_prompt_names_rust (task : string) (previous_error : option string) :
  str_in "rust" (lower (build_prompt task "rust" previous_error)) = true.
Proof. destruct previous_error as [[|c e]|]; vm_compute; reflexivity. Qed.

(** For a Rust prompt the mock client has two texts. *)
Lemma mock_create_rust (task : string) (previous_error : option string) :
  let text := mock_create (user_message (build_prompt task "rust" previous_error)) in
  text = mock_rust_quicksort \/ text = mock_rust_hello.
Proof.
  unfold mock_create, user_message. cbn [content].
  rewrite rust_prompt_names_rust.
  destruct (str_in "quicksort" _); [now left | now right].
Qed.

Lemma rust_serves (s : Shape) :
  fallback_serves "rust" s = true -> s = HelloWorld \/ s = Quicksort.
Proof. destruct s; vm_compute; intros Hs; try discriminate Hs; tauto. Qed.

(** C8 as stated fails for Rust: of the four shapes, the mock client
    serves two, "hello world" and "quicksort". *)
Lemma three_shapes_each_fails : ~ three_shapes_each.
Proof.
  intros [(shapes & Hnodup & Hlen & Hall) _].
  assert (Hincl : incl shapes [HelloWorld; Quicksort]).
  { intros s Hs. destruct (rust_serves s (Hall s Hs)) as [-> | ->]; simpl; tauto. }
  apply (NoDup_incl_length Hnodup) in Hincl. simpl in Hincl. lia.
Qed.

(** C8, amended. For Python the mock client serves the four shapes: each
    gets a Python text that matches it and carries a [unittest] test.  For
    Rust it serves "hello world" and "quicksort" and no other shape: a Rust
    prompt gets the quicksort or the hello-world program, whatever the
    task and the diagnostic quoted.  Every text of the mock client has a
    test of its language in it and its brackets balanced. *)
Theorem fallback_table :
  List.map (fallback_serves "python") all_shapes = [true; true; true; true] /\
  List.map (fallback_serves "rust") all_shapes = [true; true; false; false] /\
  fallback "rust" (shape_task FibonacciMemo) = mock_rust_hello /\
  fallback "rust" (shape_task BinarySearchTree) = mock_rust_hello /\
  (forall task previous_error,
      let text := mock_create (user_message (build_prompt task "rust" previous_error)) in
      text = mock_rust_quicksort \/ text = mock_rust_hello) /\
  forallb (fun text => has_embedded_test "rust" text || has_embedded_test "python" text)
          mock_texts = true /\
  forallb balanced mock_texts = true.
Proof.
  split; [vm_compute; reflexivity|]. split; [vm_compute; reflexivity|].
  split; [vm_compute; reflexivity|]. split; [vm_compute; reflexivity|].
  split; [exact mock_create_rust|].
  split; vm_compute; reflexivity.
Qed.

(** ** The audit files *)

Section Audit.

Context {W : Type} {HW : Host W}.

(** C10. Whatever the task: the file saved for attempt [n] is named by
    the first 30 characters of the task text [solve_task] works with (the
    text given, or its rewriting when the language was downgraded), put
    in lower case with every character outside [a-zA-Z0-9] replaced by
    [_], then [_attempt_], [n], a dot and [rs] or [py].  So two runs whose
    task names and languages agree save attempt [n] under one name, and
    the second run leaves its own text there; [task_a] and [task_b] are
    two such tasks. *)
Theorem audit_filenames (task : string) (st : Store W) :
  (forall t n language,
      attempt_filename (task_name_of t) n language
      = take 30 (sub_non_alnum (lower t)) +:+ "_attempt_" +:+ str_of_nat n +:+ "." +:+
        (if String.eqb language "rust" then "rs" else "py")) /\
  (exists run,
      solve_task task st = Some run /\
      (run_task run = task \/
       run_language run = "python" /\
       run_task run = replace "Rust" "Python" (replace "rust" "python" task)) /\
      (exists text,
          In (1%nat, EvSave (attempt_filename (task_name_of (run_task run)) 1
                               (run_language run)) text) (run_log run)) /\
      forall n f text,
        In (n, EvSave f text) (run_log run) ->
        f = attempt_filename (task_name_of (run_task run)) n (run_language run)) /\
  (forall task2 run1 run2 n f1 text1 f2 text2,
      solve_task task st = Some run1 ->
      solve_task task2 (run_store run1) = Some run2 ->
      task_name_of (run_task run1) = task_name_of (run_task run2) ->
      run_language run1 = run_language run2 ->
      In (n, EvSave f1 text1) (run_log run1) ->
      In (n, EvSave f2 text2) (run_log run2) ->
      f1 = f2 /\
      cwd_files (run_store run1) !! f1 = Some text1 /\
      cwd_files (run_store run2) !! f1 = Some text2) /\
  (task_a <> task_b /\
   sub_non_alnum (lower task_a) <> sub_non_alnum (lower task_b) /\
   task_name_of task_a = task_name_of task_b /\
   forall n language,
     attempt_filename (task_name_of task_a) n language
     = attempt_filename (task_name_of task_b) n language).
Proof.
  split; [reflexivity|]. split; [|split].
  - destruct (solve_task_returns task st) as [run Hrun].
    exists run. split; [exact Hrun|].
    destruct (solve_task_loop _ _ _ Hrun) as [st1 Hloop].
    split; [|split].
    + destruct (solve_task_resolved _ _ _ Hrun) as [[_ Ht]|[[_ Ht]|(Hl & _ & Ht)]]; tauto.
    + apply (loop_saves_head _ _ _ _ _ _ _ _ _ _ Hloop). unfold max_attempts. lia.
    + intros n f text Hin.
      now destruct (loop_saves _ _ _ _ _ _ _ _ _ _ Hloop _ _ _ Hin).
  - intros task2 run1 run2 n f1 text1 f2 text2 Hrun1 Hrun2 Hname Hlang Hin1 Hin2.
    destruct (solve_task_loop _ _ _ Hrun1) as [s1 Hloop1].
    destruct (solve_task_loop _ _ _ Hrun2) as [s2 Hloop2].
    destruct (loop_saves _ _ _ _ _ _ _ _ _ _ Hloop1 _ _ _ Hin1) as [Hf1 Hc1].
    destruct (loop_saves _ _ _ _ _ _ _ _ _ _ Hloop2 _ _ _ Hin2) as [Hf2 Hc2].
    assert (Hsame : f1 = f2) by (rewrite Hf1, Hf2, Hname, Hlang; reflexivity).
    split; [exact Hsame|]. split; [exact Hc1|]. now rewrite Hsame.
  - split; [discriminate|]. split; [vm_compute; discriminate|].
    assert (Hname : task_name_of task_a = task_name_of task_b) by (vm_compute; reflexivity).
    split; [exact Hname|]. intros n language. now rewrite Hname.
Qed.

End Audit.

(** ** Runs on the scripted host *)

Ltac find_entry := repeat first [left; reflexivity | right].

(** A Rust task whose first build fails and whose second attempt passes. *)
Lemma solve_task_pass_witness :
  exists run,
    solve_task (HW := with_cargo) "write quicksort in Rust" script_fail_once = Some run /\
    In (2%nat, EvTested true rust_passed) (run_log run) /\
    success (run_result run) = true /\
    attempts (run_result run) = 2%nat.
Proof.
  destruct (solve_task_pass (HW := with_cargo) "write quicksort in Rust" script_fail_once)
    as (run & Hrun & Hpass).
  exists run. split; [exact Hrun|].
  assert (Hin : In (2%nat, EvTested true rust_passed) (run_log run)).
  { vm_compute in Hrun. injection Hrun as <-. cbn [run_log]. find_entry. }
  split; [exact Hin|].
  destruct (Hpass _ _ Hin) as (Hs & Ha & _). now split.
Defined.

(** A Python task that fails its syntax check three times. *)
Lemma solve_task_fail_witness :
  exists run,
    solve_task (HW := with_cargo) "say hello" script_fail_thrice = Some run /\
    In (3%nat, EvTested false (syntax_error "SyntaxError: third")) (run_log run) /\
    success (run_result run) = false /\
    attempts (run_result run) = 3%nat /\
    final_error (run_result run) = Some (syntax_error "SyntaxError: third").
Proof.
  destruct (solve_task_fail (HW := with_cargo) "say hello" script_fail_thrice)
    as (run & Hrun & Hfail).
  exists run. split; [exact Hrun|].
  assert (Hin : In (1%nat, EvTested false (syntax_error "SyntaxError: first")) (run_log run) /\
                In (2%nat, EvTested false (syntax_error "SyntaxError: second")) (run_log run) /\
                In (3%nat, EvTested false (syntax_error "SyntaxError: third")) (run_log run)).
  { vm_compute in Hrun. injection Hrun as <-. cbn [run_log].
    split; [|split]; find_entry. }
  destruct Hin as (H1 & H2 & H3).
  split; [exact H3|]. exact (Hfail _ _ _ H1 H2 H3).
Defined.

(** The same run has one result, with three attempts. *)
Lemma solve_task_terminal_witness :
  exists run,
    solve_task (HW := with_cargo) "say hello" script_fail_thrice = Some run /\
    attempts (run_result run) = 3%nat.
Proof.
  destruct (solve_task_terminal (HW := with_cargo) "say hello" script_fail_thrice)
    as (run & Hrun & Huniq & _).
  exists run. split; [exact Hrun|].
  assert (Hthree : exists run', solve_task (HW := with_cargo) "say hello" script_fail_thrice
                                = Some run' /\ attempts (run_result run') = 3%nat).
  { eexists. split; [vm_compute; reflexivity | reflexivity]. }
  destruct Hthree as (run' & Hrun' & Hattempts).
  now rewrite <- (Huniq run' Hrun').
Defined.

(** The first diagnostic of that run is quoted in the second prompt. *)
Lemma solve_task_feedback_witness :
  exists run prompt gen,
    solve_task (HW := with_cargo) "say hello" script_fail_thrice = Some run /\
    In (1%nat, EvTested false (syntax_error "SyntaxError: first")) (run_log run) /\
    In (2%nat, EvCreate [{| role := "user"; content := prompt |}] gen) (run_log run) /\
    str_in (syntax_error "SyntaxError: first") prompt = true.
Proof.
  destruct (solve_task_feedback (HW := with_cargo) "say hello" script_fail_thrice)
    as (run & Hrun & Hfeed).
  assert (Hin : In (1%nat, EvTested false (syntax_error "SyntaxError: first")) (run_log run)).
  { vm_compute in Hrun. injection Hrun as <-. cbn [run_log]. find_entry. }
  destruct (Hfeed 1%nat _ ltac:(lia) Hin) as (prompt & gen & Hnext & _ & Hquoted).
  exists run, prompt, gen. repeat split; assumption.
Defined.

(** A build that exits with code 1. *)
Lemma test_rust_code_build_first_witness :
  fst (fst (test_rust_code (HW := with_cargo) mock_rust_hello script_fail_once))
  = (false, build_failed "error: expected one of").
Proof.
  destruct (test_rust_code (HW := with_cargo) mock_rust_hello script_fail_once)
    as [[r evs] st'] eqn:Hrun.
  destruct (test_rust_code_build_first _ _ _ _ _ Hrun) as [Hfail _].
  vm_compute in Hrun. injection Hrun as <- <- <-.
  refine (proj1 (Hfail (Some "/tmp/tmpdir/test_project") 30%nat 1%Z EmptyString
                   "error: expected one of" _ _)).
  - right. left. reflexivity.
  - discriminate.
Defined.

(** A syntax check that outlives its ten seconds. *)
Lemma timeout_is_its_own_failure_witness :
  exists run,
    solve_task (HW := with_cargo) "say hello" script_timeout = Some run /\
    In (1%nat, EvTested false python_timeout) (run_log run).
Proof.
  destruct (timeout_is_its_own_failure (HW := with_cargo) "say hello" mock_python_hello
              script_timeout script_timeout)
    as (_ & _ & _ & run & Hrun & Hto).
  exists run. split; [exact Hrun|].
  assert (Hlang : run_language run = "python").
  { vm_compute in Hrun. injection Hrun as <-. reflexivity. }
  assert (Hin : In (1%nat, EvSpawn ["python3"; "-m"; "py_compile"; "/tmp/tmpfile.py"]
                             None 10 TimedOut) (run_log run)).
  { vm_compute in Hrun. injection Hrun as <-. cbn [run_log]. find_entry. }
  destruct (Hto _ _ _ _ Hin) as [Htested _].
  rewrite Hlang in Htested. exact Htested.
Defined.

(** The hello-world program has no dependency comment. *)
Lemma create_rust_project_main_rs_witness :
  tmp_files (snd (create_rust_project mock_rust_hello "/tmp/tmpdir" script_quiet))
    !! main_rs_path "/tmp/tmpdir" = Some mock_rust_hello.
Proof.
  refine (proj2 (proj2 (proj2 (create_rust_project_main_rs
                                 mock_rust_hello "/tmp/tmpdir" script_quiet))) _).
  intros line Hin. vm_compute in Hin.
  repeat (destruct Hin as [<-|Hin]; [vm_compute; reflexivity|]).
  destruct Hin.
Defined.

(** [task_a], then [task_b]: the quicksort saved by the first run is
    replaced by the hello-world program of the second. *)
Lemma audit_filenames_witness :
  exists run1 run2,
    solve_task (HW := with_cargo) task_a script_quiet = Some run1 /\
    solve_task (HW := with_cargo) task_b (run_store run1) = Some run2 /\
    cwd_files (run_store run1) !! "please_write_me_a_program_that_attempt_1.py"
      = Some mock_python_quicksort /\
    cwd_files (run_store run2) !! "please_write_me_a_program_that_attempt_1.py"
      = Some mock_python_hello.
Proof.
  destruct (audit_filenames (HW := with_cargo) task_a script_quiet)
    as (_ & (run1 & Hrun1 & _) & Hover & _).
  destruct (solve_task_returns (HW := with_cargo) task_b (run_store run1)) as [run2 Hrun2].
  exists run1, run2. split; [exact Hrun1|]. split; [exact Hrun2|].
  assert (Hfacts :
    task_name_of (run_task run1) = task_name_of (run_task run2) /\
    run_language run1 = run_language run2 /\
    In (1%nat, EvSave "please_write_me_a_program_that_attempt_1.py" mock_python_quicksort)
       (run_log run1) /\
    In (1%nat, EvSave "please_write_me_a_program_that_attempt_1.py" mock_python_hello)
       (run_log run2)).
  { vm_compute in Hrun1. injection Hrun1 as <-.
    vm_compute in Hrun2. injection Hrun2 as <-.
    cbn [run_task run_language run_log].
    split; [vm_compute; reflexivity|]. split; [reflexivity|].
    split; find_entry. }
  destruct Hfacts as (Hname & Hlang & Hin1 & Hin2).
  destruct (Hover task_b run1 run2 _ _ _ _ _ Hrun1 Hrun2 Hname Hlang Hin1 Hin2)
    as (_ & Hc1 & Hc2).
  now split.
Defined.
